(** * Instance lifecycle and DNS orchestration ([orchlib/aws.py])

    A shallow embedding of [create_instance], [list_instances],
    [terminate_instances], [register_dns] and [name_to_group].

    The functions talk to two boto3 clients ([ec2]/[ec2client] and [r53]),
    sleep, and print.  Every such action is recorded, in program order, in a
    trace; a provider is any function from the trace so far and the request
    to a response, so that a provider may answer differently as time passes
    (a change that is PENDING for three polls and INSYNC afterwards, say).
    Python exceptions are the [Raise] outcome; the unbounded polling loop of
    [register_dns] runs on fuel and [Diverge] is the outcome of a run whose
    fuel is spent. *)

From Stdlib Require Import ZArith String List Lia.
From stdpp Require Import base option list gmap strings.

Local Open Scope string_scope.
Local Open Scope list_scope.
Local Open Scope Z_scope.

(** ** Requests and responses of the provider *)

(** One entry of an EC2 tag list, [{'Key': ..., 'Value': ...}]. *)
Record Tag := { Key : string; Value : string }.

Record Ebs := {
  DeleteOnTermination : bool;
  VolumeSize : Z;
  VolumeType : string
}.

Record BlockDeviceMapping := { DeviceName : string; dev_Ebs : Ebs }.

Record Placement := { AvailabilityZone : string }.

Record NetworkInterface := {
  SubnetId : string;
  DeviceIndex : Z;
  AssociatePublicIpAddress : bool;
  Groups : list string
}.

Record TagSpecification := { ResourceType : string; spec_Tags : list Tag }.

(** The keyword arguments of [ec2.create_instances]. *)
Record RunInstances := {
  ImageId : string;
  InstanceType : string;
  BlockDeviceMappings : list BlockDeviceMapping;
  KeyName : string;
  MinCount : Z;
  MaxCount : Z;
  run_Placement : Placement;
  NetworkInterfaces : list NetworkInterface;
  TagSpecifications : list TagSpecification
}.

(** One element of [Filters=] in [describe_instances]. *)
Record Filter := { Name : string; Values : list string }.

(** An instance as [describe_instances] describes it.  The keys ['Tags'] and
    ['PublicIpAddress'] are absent from the response when the instance has no
    tag, respectively no public address. *)
Record InstanceDesc := {
  InstanceId : string;
  inst_Tags : option (list Tag);
  PublicIpAddress : option string;
  State : string
}.

Record Reservation := { Instances : list InstanceDesc }.

Record DescribeInstancesResponse := { Reservations : list Reservation }.

(** A boto3 [ec2.Instance] resource: the identifier, and the description
    cached by the last [load], if there was one. *)
Record Instance := {
  instance_id : string;
  meta_data : option InstanceDesc
}.

Record HostedZone := { zone_Id : string; zone_Name : string }.

Record ListHostedZonesResponse := { HostedZones : list HostedZone }.

Record ResourceRecord := { rr_Value : string }.

Record ResourceRecordSet := {
  rrs_Name : string;
  rrs_Type : string;
  TTL : Z;
  ResourceRecords : list ResourceRecord
}.

Record Change := { Action : string; change_ResourceRecordSet : ResourceRecordSet }.

Record ChangeBatch := { Changes : list Change }.

Record ChangeInfoT := { Id : string; Status : string }.

(** The response of [change_resource_record_sets] and of [get_change]. *)
Record ChangeResponse := { ChangeInfo : ChangeInfoT }.

(** The compact form [list_instances] returns. *)
Record Summary := {
  sum_InstanceId : string;
  sum_Tags : gmap string string;
  sum_PublicIpAddress : string
}.

(** [orchlib.config.creds], the entries this file reads. *)
Record Creds := {
  aws_keyname : string;
  aws_subnet_id : string;
  aws_security_group : string;
  owner : string
}.

(** ** Outcomes, events and the trace *)

(** What a provider call gives back: a response, or a client error with its
    error code. *)
Inductive result (A : Type) : Type :=
| Ok (a : A)
| Failed (code : string).
Arguments Ok {A} a.
Arguments Failed {A} code.

Inductive exn : Type :=
| Exception (msg : string)
| KeyError (key : string)
| IndexError
| ClientError (code : string).

Inductive outcome (A : Type) : Type :=
| Return (a : A)
| Raise (e : exn)
| Diverge.
Arguments Return {A} a.
Arguments Raise {A} e.
Arguments Diverge {A}.

(** An argument of [print]. *)
Inductive printable : Type :=
| PStr (s : string)
| PInt (n : Z)
| PAddr (a : option string)
| PSummaries (l : list Summary).

Inductive event : Type :=
| EvPrint (args : list printable)
| EvSleep (secs : Z)
| EvCreateInstances (req : RunInstances) (resp : result (list Instance))
| EvWaitUntilRunning (id : string) (resp : result unit)
| EvLoad (id : string) (resp : result InstanceDesc)
| EvDescribeInstances (filters : list Filter) (resp : result DescribeInstancesResponse)
| EvTerminateInstances (ids : list string) (resp : result unit)
| EvListHostedZonesByName (dns_name : string) (resp : result ListHostedZonesResponse)
| EvChangeResourceRecordSets (zone : string) (batch : ChangeBatch) (resp : result ChangeResponse)
| EvGetChange (id : string) (resp : result ChangeResponse).

Abbreviation trace := (list event).

(** The provider: each operation answers from the history of the run. *)
Record provider := {
  ec2_create_instances : trace -> RunInstances -> result (list Instance);
  ec2_wait_until_running : trace -> string -> result unit;
  ec2_load : trace -> string -> result InstanceDesc;
  ec2client_describe_instances : trace -> list Filter -> result DescribeInstancesResponse;
  ec2client_terminate_instances : trace -> list string -> result unit;
  r53_list_hosted_zones_by_name : trace -> string -> result ListHostedZonesResponse;
  r53_change_resource_record_sets : trace -> string -> ChangeBatch -> result ChangeResponse;
  r53_get_change : trace -> string -> result ChangeResponse
}.

(** ** The monad of the embedding: trace passing with exceptions *)

Definition M (A : Type) : Type := trace -> outcome A * trace.

#[global] Instance M_ret : MRet M := fun A a t => (Return a, t).

#[global] Instance M_bind : MBind M := fun A B f m t =>
  match m t with
  | (Return a, t') => f a t'
  | (Raise e, t') => (Raise e, t')
  | (Diverge, t') => (Diverge, t')
  end.

Definition raise {A} (e : exn) : M A := fun t => (Raise e, t).

Definition diverge {A} : M A := fun t => (Diverge, t).

Definition emit (e : event) : M unit := fun t => (Return tt, t ++ [e]).

(** A provider call: the response is computed from the trace, the call is
    logged with its response, and a failed call raises. *)
Definition call {A} (op : trace -> result A) (ev : result A -> event) : M A :=
  fun t =>
    match op t with
    | Ok a => (Return a, t ++ [ev (Ok a)])
    | Failed c => (Raise (ClientError c), t ++ [ev (Failed c)])
    end.

Definition print (args : list printable) : M unit := emit (EvPrint args).

Definition time_sleep (secs : Z) : M unit := emit (EvSleep secs).

(** [l[i]] on a Python list. *)
Definition subscript {A} (l : list A) (i : nat) : M A :=
  match l !! i with
  | Some a => mret a
  | None => raise IndexError
  end.

(** [d[k]] on a Python dict. *)
Definition getitem (d : gmap string string) (k : string) : M string :=
  match d !! k with
  | Some v => mret v
  | None => raise (KeyError k)
  end.

(** A [for] loop run for its effects. *)
Fixpoint for_ {A B} (l : list A) (body : A -> M B) : M unit :=
  match l with
  | [] => mret tt
  | x :: l' => body x ;; for_ l' body
  end.

(** A list comprehension [[f x for x in l]] whose element expression may
    raise. *)
Fixpoint comprehension {A B} (f : A -> M B) (l : list A) : M (list B) :=
  match l with
  | [] => mret []
  | x :: l' => y ← f x; ys ← comprehension f l'; mret (y :: ys)
  end.

(** A list comprehension [[x for x in l if p x]] whose condition may raise. *)
Fixpoint comprehension_if {A} (p : A -> M bool) (l : list A) : M (list A) :=
  match l with
  | [] => mret []
  | x :: l' =>
      b ← p x;
      ys ← comprehension_if p l';
      mret (if b : bool then x :: ys else ys)
  end.

(** ** The program *)

Section Program.

Context (aws : provider) (creds : Creds).

(** The boto3 calls of the file, against [aws]. *)

Definition ec2_dot_create_instances (req : RunInstances) : M (list Instance) :=
  call (fun t => ec2_create_instances aws t req) (EvCreateInstances req).

Definition wait_until_running (instance : Instance) : M unit :=
  call (fun t => ec2_wait_until_running aws t (instance_id instance))
       (EvWaitUntilRunning (instance_id instance)).

(** [ec2.Instance(id)] builds the resource and fetches nothing. *)
Definition ec2_dot_Instance (id : string) : Instance :=
  {| instance_id := id; meta_data := None |}.

(** Reading an attribute of a resource loads its description on first use and
    keeps it in the resource; the resource is returned with the value. *)
Definition public_ip_address (instance : Instance) : M (option string * Instance) :=
  match meta_data instance with
  | Some d => mret (PublicIpAddress d, instance)
  | None =>
      d ← call (fun t => ec2_load aws t (instance_id instance))
               (EvLoad (instance_id instance));
      mret (PublicIpAddress d,
            {| instance_id := instance_id instance; meta_data := Some d |})
  end.

Definition ec2client_dot_describe_instances (filters : list Filter)
  : M DescribeInstancesResponse :=
  call (fun t => ec2client_describe_instances aws t filters)
       (EvDescribeInstances filters).

Definition ec2client_dot_terminate_instances (ids : list string) : M unit :=
  call (fun t => ec2client_terminate_instances aws t ids)
       (EvTerminateInstances ids).

Definition r53_dot_list_hosted_zones_by_name (dns_name : string)
  : M ListHostedZonesResponse :=
  call (fun t => r53_list_hosted_zones_by_name aws t dns_name)
       (EvListHostedZonesByName dns_name).

Definition r53_dot_change_resource_record_sets (zone : string) (batch : ChangeBatch)
  : M ChangeResponse :=
  call (fun t => r53_change_resource_record_sets aws t zone batch)
       (EvChangeResourceRecordSets zone batch).

Definition r53_dot_get_change (id : string) : M ChangeResponse :=
  call (fun t => r53_get_change aws t id) (EvGetChange id).

Definition UBUNTU_20_04 : string := "ami-09e67e426f25ce0d7".

(** The request [create_instance] sends. *)
Definition create_request (name : string) : RunInstances :=
  let blockDeviceMappings :=
    [ {| DeviceName := "/dev/xvda";
         dev_Ebs := {| DeleteOnTermination := true;
                       VolumeSize := 32;
                       VolumeType := "gp2" |} |} ] in
  {| ImageId := UBUNTU_20_04;
     InstanceType := "t2.nano";
     BlockDeviceMappings := blockDeviceMappings;
     KeyName := aws_keyname creds;
     MinCount := 1;
     MaxCount := 1;
     run_Placement := {| AvailabilityZone := "us-east-1b" |};
     NetworkInterfaces :=
       [ {| SubnetId := aws_subnet_id creds;
            DeviceIndex := 0;
            AssociatePublicIpAddress := true;
            Groups := [aws_security_group creds] |} ];
     TagSpecifications :=
       [ {| ResourceType := "instance";
            spec_Tags :=
              [ {| Key := "Name"; Value := name |};
                {| Key := "Owner"; Value := owner creds |};
                {| Key := "deploy-group"; Value := "learning-observer" |} ] |} ]
  |}.

(** [instance.wait_until_running()] is one call of the SDK; the second
    [print] reads [public_ip_address] of the fresh resource, which is what
    loads it. *)
Definition create_instance (name : string) : M Instance :=
  response ← ec2_dot_create_instances (create_request name);
  instance ← subscript response 0;
  wait_until_running instance;;
  let instance := ec2_dot_Instance (instance_id instance) in
  print [PStr "Launched "; PStr (instance_id instance)];;
  '(ip, instance) ← public_ip_address instance;
  print [PStr "IP: "; PAddr ip];;
  mret instance.

(** [{tag['Key']: tag['Value'] for tag in tags}]: a later entry overwrites an
    earlier one with the same key. *)
Definition tags_dict (tags : list Tag) : gmap string string :=
  foldl (fun d tag => <[Key tag := Value tag]> d) ∅ tags.

(** The element expression of the comprehension in [list_instances];
    [i['Tags']] raises when the key is absent. *)
Definition summarize (i : InstanceDesc) : M Summary :=
  tags ← match inst_Tags i with
         | Some tags => mret tags
         | None => raise (KeyError "Tags")
         end;
  mret {| sum_InstanceId := InstanceId i;
          sum_Tags := tags_dict tags;
          sum_PublicIpAddress := default "--.--.--.--" (PublicIpAddress i) |}.

Definition list_instances : M (list Summary) :=
  response ← ec2client_dot_describe_instances
    [ {| Name := "tag:deploy-group"; Values := ["learning-observer"] |} ];
  let reservations := Reservations response in
  let instances := concat (Instances <$> reservations) in
  summary ← comprehension summarize instances;
  mret summary.

(** The polling loop of [register_dns],
    [while True and not unregister: ...]. *)
Fixpoint propagate (fuel : nat) (unregister : bool) (request : ChangeResponse)
  : M unit :=
  if true && negb unregister then
    match fuel with
    | O => diverge
    | S fuel' =>
        print [PStr "Propagating DNS...."; PStr (Status (ChangeInfo request))];;
        time_sleep 1;;
        let id := Id (ChangeInfo request) in
        request ← r53_dot_get_change id;
        if bool_decide (Status (ChangeInfo request) = "INSYNC") then mret tt
        else propagate fuel' unregister request
    end
  else mret tt.

(** The [ChangeBatch] of [register_dns]. *)
Definition change_batch (action subdomain domain ip : string) : ChangeBatch :=
  {| Changes :=
       [ {| Action := action;
            change_ResourceRecordSet :=
              {| rrs_Name := subdomain +:+ "." +:+ domain +:+ ".";
                 rrs_Type := "A";
                 TTL := 15;
                 ResourceRecords := [ {| rr_Value := ip |} ] |} |} ] |}.

(** [fuel] bounds the iterations of the polling loop. *)
Definition register_dns (fuel : nat) (subdomain domain ip : string)
    (unregister : bool) : M bool :=
  let action := if unregister then "DELETE" else "UPSERT" in
  response ← r53_dot_list_hosted_zones_by_name domain;
  let zones := HostedZones response in
  if bool_decide (length zones ≠ 1%nat) then
    raise (Exception "Wrong number of hosted zones!")
  else
    zone ← subscript zones 0;
    let zoneId := zone_Id zone in
    request ← r53_dot_change_resource_record_sets zoneId
                (change_batch action subdomain domain ip);
    propagate fuel unregister request;;
    mret true.

(** The condition [i['Tags']['Name'] == name] of the comprehensions in
    [terminate_instances] and [name_to_group]. *)
Definition name_is (name : string) (i : Summary) : M bool :=
  v ← getitem (sum_Tags i) "Name";
  mret (bool_decide (v = name)).

(** The fuel is that of the [register_dns] calls, which are made in delete
    mode and do not use it.  The assignment [instances = None] rebinds a
    local name that is not read again and has no counterpart here. *)
Definition terminate_instances (fuel : nat) (name : string) : M nat :=
  instances ← list_instances;
  print [PStr "All instances: "; PSummaries instances];;
  matching_instances ← comprehension_if (name_is name) instances;
  print [PStr "Matching instances: "; PSummaries matching_instances];;
  for_ (seqZ 0 10) (fun i =>
    print [PInt (10 - i)];;
    time_sleep 1);;
  print [PStr "Removing DNS"];;
  for_ matching_instances (fun instance =>
    register_dns fuel name "learning-observer.org"
      (sum_PublicIpAddress instance) true);;
  print [PStr "Terminating"];;
  ec2client_dot_terminate_instances (sum_InstanceId <$> matching_instances);;
  mret (length matching_instances).

(** [orchlib.fabric_flock.group_from_poolstring] lives outside this file; it
    is a parameter of [name_to_group]. *)
Context {Group : Type} (group_from_poolstring : string -> Group).

Definition name_to_group (machine_name : string) : M Group :=
  instances ← list_instances;
  matching ← comprehension_if (name_is machine_name) instances;
  let pool := String.concat " " (sum_PublicIpAddress <$> matching) in
  print [PStr pool];;
  let group := group_from_poolstring pool in
  mret group.

End Program.

(** ** A simulated provider

    A small deterministic provider to run the program on concrete inputs.
    Its state is read off the trace: instances launched by earlier
    [create_instances] calls join the fleet, ids named in earlier
    [terminate_instances] calls are described as terminated, and a change
    becomes INSYNC once it has been polled [pending_polls] times. *)

Module Sim.

Record config := {
  initial : list InstanceDesc;
  address_of : string -> option string;
  zones_of : string -> list HostedZone;
  first_status : string;
  pending_polls : nat
}.

Section Sim.

Context (cfg : config).

Definition launched_by (e : event) : list InstanceDesc :=
  match e with
  | EvCreateInstances _ (Ok l) => omap meta_data l
  | _ => []
  end.

Definition terminated_by (e : event) : list string :=
  match e with
  | EvTerminateInstances ids (Ok _) => ids
  | _ => []
  end.

Definition submitted_by (e : event) : list string :=
  match e with
  | EvChangeResourceRecordSets _ _ (Ok r) => [Id (ChangeInfo r)]
  | _ => []
  end.

Definition polled_by (id : string) (e : event) : list unit :=
  match e with
  | EvGetChange id' _ => if bool_decide (id' = id) then [()] else []
  | _ => []
  end.

Definition settle (t : trace) (launched : bool) (d : InstanceDesc) : InstanceDesc :=
  if bool_decide (InstanceId d ∈ flat_map terminated_by t) then
    {| InstanceId := InstanceId d; inst_Tags := inst_Tags d;
       PublicIpAddress := None; State := "terminated" |}
  else if launched then
    {| InstanceId := InstanceId d; inst_Tags := inst_Tags d;
       PublicIpAddress := address_of cfg (InstanceId d); State := "running" |}
  else d.

Definition fleet (t : trace) : list InstanceDesc :=
  (settle t false <$> initial cfg) ++ (settle t true <$> flat_map launched_by t).

Definition has_tag (k : string) (vs : list string) (d : InstanceDesc) : bool :=
  match inst_Tags d with
  | Some tags =>
      existsb (fun tag => bool_decide (Key tag = k) && bool_decide (Value tag ∈ vs)) tags
  | None => false
  end.

Definition passes (f : Filter) (d : InstanceDesc) : bool :=
  if String.prefix "tag:" (Name f) then
    has_tag (String.substring 4 (String.length (Name f) - 4) (Name f)) (Values f) d
  else true.

Definition digit (n : nat) : string :=
  String (Ascii.ascii_of_nat (48 + n)) "".

Definition aws : provider := {|
  ec2_create_instances t req :=
    let id := "i-" +:+ digit (length (flat_map launched_by t)) in
    Ok [ {| instance_id := id;
            meta_data := Some {| InstanceId := id;
                                 inst_Tags := Some (flat_map spec_Tags (TagSpecifications req));
                                 PublicIpAddress := None;
                                 State := "pending" |} |} ];
  ec2_wait_until_running t id :=
    if bool_decide (id ∈ InstanceId <$> fleet t) then Ok tt
    else Failed "InvalidInstanceID.NotFound";
  ec2_load t id :=
    match List.filter (fun d => bool_decide (InstanceId d = id)) (fleet t) with
    | d :: _ => Ok d
    | [] => Failed "InvalidInstanceID.NotFound"
    end;
  ec2client_describe_instances t filters :=
    Ok {| Reservations :=
            (fun d => {| Instances := [d] |}) <$>
              List.filter (fun d => forallb (fun f => passes f d) filters) (fleet t) |};
  ec2client_terminate_instances t ids := Ok tt;
  r53_list_hosted_zones_by_name t dns_name :=
    Ok {| HostedZones := zones_of cfg dns_name |};
  r53_change_resource_record_sets t zone batch :=
    Ok {| ChangeInfo :=
            {| Id := "/change/C" +:+ digit (length (flat_map submitted_by t));
               Status := first_status cfg |} |};
  r53_get_change t id :=
    Ok {| ChangeInfo :=
            {| Id := id;
               Status := if bool_decide (pending_polls cfg ≤ length (flat_map (polled_by id) t))%nat
                         then "INSYNC" else "PENDING" |} |}
|}.

End Sim.

(** The configuration file of the simulated runs. *)
Definition creds : Creds := {|
  aws_keyname := "key"; aws_subnet_id := "subnet-1";
  aws_security_group := "sg-1"; owner := "ops"
|}.

(** One hosted zone for every domain, an address for every instance, and
    changes in sync at the third poll. *)
Definition plain : config := {|
  initial := [];
  address_of := fun _ => Some "203.0.113.7";
  zones_of := fun d => [ {| zone_Id := "/hostedzone/Z1"; zone_Name := d +:+ "." |} ];
  first_status := "PENDING";
  pending_polls := 2
|}.

(** No hosted zone, and two hosted zones, for every domain. *)
Definition no_zone : config := {|
  initial := []; address_of := address_of plain;
  zones_of := fun _ => [];
  first_status := "PENDING"; pending_polls := 2
|}.

Definition two_zones : config := {|
  initial := []; address_of := address_of plain;
  zones_of := fun d => [ {| zone_Id := "/hostedzone/Z1"; zone_Name := d +:+ "." |};
                         {| zone_Id := "/hostedzone/Z2"; zone_Name := d +:+ "." |} ];
  first_status := "PENDING"; pending_polls := 2
|}.

(** The change is answered INSYNC at submission already, PENDING at the first
    poll and INSYNC from the second poll on. *)
Definition eager : config := {|
  initial := []; address_of := address_of plain;
  zones_of := zones_of plain;
  first_status := "INSYNC"; pending_polls := 1
|}.


(** A fleet that exists before the run starts. *)
Definition with_fleet (l : list InstanceDesc) : config := {|
  initial := l; address_of := address_of plain;
  zones_of := zones_of plain;
  first_status := "PENDING"; pending_polls := 2
|}.

Definition machine (id name : string) (address : option string) : InstanceDesc := {|
  InstanceId := id;
  inst_Tags := Some [ {| Key := "Name"; Value := name |};
                      {| Key := "Owner"; Value := "ops" |};
                      {| Key := "deploy-group"; Value := "learning-observer" |} ];
  PublicIpAddress := address;
  State := "running"
|}.

(** An instance of the deployment that was never given a name. *)
Definition anonymous (id : string) : InstanceDesc := {|
  InstanceId := id;
  inst_Tags := Some [ {| Key := "deploy-group"; Value := "learning-observer" |} ];
  PublicIpAddress := None;
  State := "running"
|}.

(** An instance outside the deployment, without any tag. *)
Definition stranger (id : string) : InstanceDesc := {|
  InstanceId := id; inst_Tags := None;
  PublicIpAddress := Some "198.51.100.9"; State := "stopped"
|}.

End Sim.

(** ** Vocabulary of the statements *)

(** The filter [list_instances] sends. *)
Definition deploy_group_filter : list Filter :=
  [ {| Name := "tag:deploy-group"; Values := ["learning-observer"] |} ].

(** The instances of a [describe_instances] response, reservations
    flattened. *)
Definition inventory (resp : DescribeInstancesResponse) : list InstanceDesc :=
  concat (Instances <$> Reservations resp).

#[global] Instance Tag_eq_dec : EqDecision Tag.
Proof. solve_decision. Defined.

(** The instance carries the deployment marker tag. *)
Definition has_marker (i : InstanceDesc) : Prop :=
  {| Key := "deploy-group"; Value := "learning-observer" |} ∈ default [] (inst_Tags i).

(** The instance carries a tag whose key is [k]. *)
Definition has_key (k : string) (i : InstanceDesc) : Prop :=
  k ∈ Key <$> default [] (inst_Tags i).

#[global] Instance has_marker_dec i : Decision (has_marker i).
Proof. unfold has_marker. apply _. Defined.

#[global] Instance has_key_dec k i : Decision (has_key k i).
Proof. unfold has_key. apply _. Defined.

(** What [summarize] returns for an instance that has a tag list. *)
Definition summary_of (i : InstanceDesc) : Summary :=
  {| sum_InstanceId := InstanceId i;
     sum_Tags := tags_dict (default [] (inst_Tags i));
     sum_PublicIpAddress := default "--.--.--.--" (PublicIpAddress i) |}.

(** The description has a ['Tags'] entry. *)
Definition tagged (i : InstanceDesc) : bool :=
  match inst_Tags i with Some _ => true | None => false end.

(** The summary's tag mapping has a ['Name'] entry. *)
Definition has_name (s : Summary) : bool :=
  match sum_Tags s !! "Name" with Some _ => true | None => false end.

(** The summary's [Name] tag is [name]. *)
Definition named (name : string) (s : Summary) : bool :=
  bool_decide (sum_Tags s !! "Name" = Some name).

(** The ten-second countdown of [terminate_instances]. *)
Definition countdown : list event :=
  flat_map (fun i => [EvPrint [PInt (10 - i)]; EvSleep 1]) (seqZ 0 10).

(** One round of the polling loop: print the last known status, sleep one
    second, ask for the change. *)
Definition round (request : ChangeResponse) (answer : result ChangeResponse)
  : list event :=
  [ EvPrint [PStr "Propagating DNS...."; PStr (Status (ChangeInfo request))];
    EvSleep 1;
    EvGetChange (Id (ChangeInfo request)) answer ].

(** Successive rounds: each one asks with the id of the previous answer. *)
Fixpoint rounds (request : ChangeResponse) (answers : list ChangeResponse)
  : list event :=
  match answers with
  | [] => []
  | answer :: rest => round request (Ok answer) ++ rounds answer rest
  end.

Definition in_sync (r : ChangeResponse) : Prop :=
  Status (ChangeInfo r) = "INSYNC".

(** The two calls every [register_dns] that reaches the change makes. *)
Definition submission (action subdomain domain ip : string)
    (zones : ListHostedZonesResponse) (zone : HostedZone)
    (answer : result ChangeResponse) : list event :=
  [ EvListHostedZonesByName domain (Ok zones);
    EvChangeResourceRecordSets (zone_Id zone)
      (change_batch action subdomain domain ip) answer ].

(** The [action] variable of [register_dns]. *)
Definition action_of (unregister : bool) : string :=
  if unregister then "DELETE" else "UPSERT".

Definition wrong_zones : exn := Exception "Wrong number of hosted zones!".

(** The calls of one [register_dns] in delete mode that returned, for the
    record of summary [m]. *)
Definition deletion (name domain : string) (m : Summary) (evs : list event) : Prop :=
  exists zones zone request,
    HostedZones zones = [zone] /\
    evs = submission "DELETE" name domain (sum_PublicIpAddress m) zones zone (Ok request).


(** Summary [s] is the compact form of description [i]: same id; the tag
    mapping gives each key the value of its last entry in the tag list, so
    with unique keys it holds exactly the entries of the list; the address is
    the instance's, or the placeholder when it has none. *)
Definition summarizes (i : InstanceDesc) (s : Summary) : Prop :=
  sum_InstanceId s = InstanceId i /\
  (exists tags,
     inst_Tags i = Some tags /\
     (forall k, sum_Tags s !! k = Value <$> last (filter (fun tag => Key tag = k) tags)) /\
     (NoDup (Key <$> tags) ->
      forall k v, sum_Tags s !! k = Some v <-> {| Key := k; Value := v |} ∈ tags)) /\
  sum_PublicIpAddress s =
    match PublicIpAddress i with Some address => address | None => "--.--.--.--" end.






Definition is_change (e : event) : bool :=
  match e with EvChangeResourceRecordSets _ _ _ => true | _ => false end.

Definition is_terminate (e : event) : bool :=
  match e with EvTerminateInstances _ _ => true | _ => false end.

Definition is_dns (e : event) : bool :=
  match e with
  | EvListHostedZonesByName _ _ | EvChangeResourceRecordSets _ _ _
  | EvGetChange _ _ => true
  | _ => false
  end.

(** The error code of a provider call that failed. *)
Definition failure_of (e : event) : option string :=
  match e with
  | EvCreateInstances _ (Failed c) | EvWaitUntilRunning _ (Failed c)
  | EvLoad _ (Failed c) | EvDescribeInstances _ (Failed c)
  | EvTerminateInstances _ (Failed c) | EvListHostedZonesByName _ (Failed c)
  | EvChangeResourceRecordSets _ _ (Failed c) | EvGetChange _ (Failed c) => Some c
  | _ => None
  end.

(** The values of the records that the submitted DELETE changes name, in
    order. *)
Definition deleted_values (evs : list event) : list string :=
  flat_map (fun e =>
    match e with
    | EvChangeResourceRecordSets _ batch _ =>
        flat_map (fun c =>
          if bool_decide (Action c = "DELETE")
          then rr_Value <$> ResourceRecords (change_ResourceRecordSet c)
          else []) (Changes batch)
    | _ => []
    end) evs.

(** The event is one that [create_instance] makes after the creation. *)
Definition follows_creation (e : event) : bool :=
  match e with
  | EvWaitUntilRunning _ _ | EvLoad _ _ | EvPrint _ => true
  | _ => false
  end.

(** Simulated runs: a fleet and no hosted zone; a provider that rejects every
    terminate request. *)
Definition fleet_without_zone (l : list InstanceDesc) : Sim.config := {|
  Sim.initial := l; Sim.address_of := Sim.address_of Sim.plain;
  Sim.zones_of := fun _ => [];
  Sim.first_status := "PENDING"; Sim.pending_polls := 2
|}.

Definition refusing (cfg : Sim.config) : provider := {|
  ec2_create_instances := ec2_create_instances (Sim.aws cfg);
  ec2_wait_until_running := ec2_wait_until_running (Sim.aws cfg);
  ec2_load := ec2_load (Sim.aws cfg);
  ec2client_describe_instances := ec2client_describe_instances (Sim.aws cfg);
  ec2client_terminate_instances := fun _ _ => Failed "UnauthorizedOperation";
  r53_list_hosted_zones_by_name := r53_list_hosted_zones_by_name (Sim.aws cfg);
  r53_change_resource_record_sets := r53_change_resource_record_sets (Sim.aws cfg);
  r53_get_change := fun _ _ => Failed "Throttling"
|}.

(** A provider whose launched instances never come up. *)
Definition stalled : provider := {|
  ec2_create_instances := ec2_create_instances (Sim.aws Sim.plain);
  ec2_wait_until_running := fun _ _ => Failed "WaiterError";
  ec2_load := ec2_load (Sim.aws Sim.plain);
  ec2client_describe_instances := ec2client_describe_instances (Sim.aws Sim.plain);
  ec2client_terminate_instances := ec2client_terminate_instances (Sim.aws Sim.plain);
  r53_list_hosted_zones_by_name := r53_list_hosted_zones_by_name (Sim.aws Sim.plain);
  r53_change_resource_record_sets := r53_change_resource_record_sets (Sim.aws Sim.plain);
  r53_get_change := r53_get_change (Sim.aws Sim.plain)
|}.

(** * Proofs *)

(** Closes a goal about a concrete run by evaluation. *)
Ltac run := vm_compute; reflexivity.

(** ** Running the monad *)

Section Runs.

Context {A B : Type}.

Lemma bind_run (m : M A) (f : A -> M B) t :
  (m ≫= f) t =
    match m t with
    | (Return a, t') => f a t'
    | (Raise e, t') => (Raise e, t')
    | (Diverge, t') => (Diverge, t')
    end.
Proof. reflexivity. Qed.

Lemma ret_run (a : A) t : (mret a : M A) t = (Return a, t).
Proof. reflexivity. Qed.

Lemma call_run (op : trace -> result A) (ev : result A -> event) t :
  call op ev t =
    (match op t with Ok a => Return a | Failed c => Raise (ClientError c) end,
     t ++ [ev (op t)]).
Proof. unfold call. now destruct (op t). Qed.

End Runs.

(** ** The polling loop *)

Section Propagate.

Context (aws : provider).

Lemma propagate_delete fuel request t :
  propagate aws fuel true request t = (Return tt, t).
Proof. now destruct fuel. Qed.

Lemma propagate_spent request t :
  propagate aws 0 false request t = (Diverge, t).
Proof. reflexivity. Qed.

(** One iteration of the loop, in terms of the provider's answer. *)
Lemma propagate_step fuel request t :
  propagate aws (S fuel) false request t =
    match r53_get_change aws
            (t ++ [EvPrint [PStr "Propagating DNS...."; PStr (Status (ChangeInfo request))];
                   EvSleep 1])
            (Id (ChangeInfo request)) with
    | Ok answer =>
        if bool_decide (Status (ChangeInfo answer) = "INSYNC")
        then (Return tt, t ++ round request (Ok answer))
        else propagate aws fuel false answer (t ++ round request (Ok answer))
    | Failed c => (Raise (ClientError c), t ++ round request (Failed c))
    end.
Proof.
  cbn [propagate andb negb]. unfold print, time_sleep, emit, r53_dot_get_change.
  unfold mbind at 1 2 3, M_bind. rewrite call_run.
  rewrite <- !(app_assoc t), <- !app_assoc. cbn [app].
  destruct (r53_get_change aws _ _) as [answer|c]; [|reflexivity].
  unfold round. now case_bool_decide.
Qed.

(** Every way the loop can end.  It returns after a last answer in sync, all
    earlier ones not; a failed poll raises; and fuel is spent only by answers
    that are not in sync. *)
Lemma propagate_outcome fuel : forall request t o t',
  propagate aws fuel false request t = (o, t') ->
  match o with
  | Return _ =>
      exists waiting final,
        (length waiting < fuel)%nat /\ Forall (fun a => ~ in_sync a) waiting /\
        in_sync final /\
        t' = t ++ rounds request (waiting ++ [final])
  | Raise e =>
      exists waiting c,
        (length waiting < fuel)%nat /\ Forall (fun a => ~ in_sync a) waiting /\
        e = ClientError c /\
        t' = t ++ rounds request waiting
               ++ round (default request (last waiting)) (Failed c)
  | Diverge =>
      exists waiting,
        length waiting = fuel /\ Forall (fun a => ~ in_sync a) waiting /\
        t' = t ++ rounds request waiting
  end.
Proof.
  induction fuel as [|fuel IH]; intros request t o t' Hrun.
  - rewrite propagate_spent in Hrun. injection Hrun as <- <-.
    exists []. now rewrite app_nil_r.
  - rewrite propagate_step in Hrun.
    destruct (r53_get_change aws _ _) as [answer|c].
    + case_bool_decide as Hsync.
      * injection Hrun as <- <-. exists [], answer. cbn [length app rounds].
        rewrite app_nil_r. repeat split; [lia | constructor | exact Hsync].
      * apply IH in Hrun. destruct o as [[]|e|].
        -- destruct Hrun as (waiting & final & Hlen & Hw & Hf & ->).
           exists (answer :: waiting), final. cbn [length app rounds].
           rewrite <- app_assoc. repeat split; [lia | now constructor | exact Hf].
        -- destruct Hrun as (waiting & c & Hlen & Hw & -> & ->).
           exists (answer :: waiting), c. cbn [length rounds].
           rewrite last_cons. rewrite <- !app_assoc.
           repeat split; [lia | now constructor |].
           now destruct (last waiting).
        -- destruct Hrun as (waiting & Hlen & Hw & ->).
           exists (answer :: waiting). cbn [length rounds].
           rewrite <- app_assoc. repeat split; [lia | now constructor].
    + injection Hrun as <- <-. exists [], c. cbn [length rounds last default app].
      repeat split; [lia | constructor].
Qed.


End Propagate.

(** ** [register_dns] *)

Section RegisterDns.

Context (aws : provider).

(** The straight-line part of [register_dns], call by call. *)
Lemma register_dns_run fuel subdomain domain ip unregister t :
  register_dns aws fuel subdomain domain ip unregister t =
    match r53_list_hosted_zones_by_name aws t domain with
    | Failed c =>
        (Raise (ClientError c), t ++ [EvListHostedZonesByName domain (Failed c)])
    | Ok zones =>
        let t1 := t ++ [EvListHostedZonesByName domain (Ok zones)] in
        match HostedZones zones with
        | [zone] =>
            let batch := change_batch (action_of unregister) subdomain domain ip in
            match r53_change_resource_record_sets aws t1 (zone_Id zone) batch with
            | Failed c =>
                (Raise (ClientError c),
                 t ++ submission (action_of unregister) subdomain domain ip
                        zones zone (Failed c))
            | Ok request =>
                let t2 := t ++ submission (action_of unregister) subdomain domain ip
                                 zones zone (Ok request) in
                match propagate aws fuel unregister request t2 with
                | (Return _, t3) => (Return true, t3)
                | (Raise e, t3) => (Raise e, t3)
                | (Diverge, t3) => (Diverge, t3)
                end
            end
        | _ => (Raise (Exception "Wrong number of hosted zones!"), t1)
        end
    end.
Proof.
  unfold register_dns, r53_dot_list_hosted_zones_by_name,
    r53_dot_change_resource_record_sets, submission, action_of.
  unfold mbind at 1, M_bind. rewrite call_run.
  destruct (r53_list_hosted_zones_by_name aws t domain) as [zones|c]; [|reflexivity].
  cbn zeta. destruct (HostedZones zones) as [|zone [|zone' more]] eqn:Hz.
  - reflexivity.
  - rewrite bool_decide_false by (cbn; lia). cbn [subscript lookup list_lookup].
    unfold mbind at 1 2, M_bind. cbn [mret M_ret]. rewrite call_run.
    rewrite <- app_assoc. cbn [app].
    destruct (r53_change_resource_record_sets aws _ _ _) as [request|c]; [|reflexivity].
    unfold mbind, M_bind. destruct (propagate aws fuel unregister request _) as [[[]|e|] t3];
      reflexivity.
  - rewrite bool_decide_true by (cbn; lia). reflexivity.
Qed.

(** In delete mode the loop is not entered: the run is the two calls. *)
Lemma register_dns_delete_run fuel subdomain domain ip t :
  register_dns aws fuel subdomain domain ip true t =
    match r53_list_hosted_zones_by_name aws t domain with
    | Failed c =>
        (Raise (ClientError c), t ++ [EvListHostedZonesByName domain (Failed c)])
    | Ok zones =>
        match HostedZones zones with
        | [zone] =>
            match r53_change_resource_record_sets aws
                    (t ++ [EvListHostedZonesByName domain (Ok zones)]) (zone_Id zone)
                    (change_batch "DELETE" subdomain domain ip) with
            | Failed c =>
                (Raise (ClientError c),
                 t ++ submission "DELETE" subdomain domain ip zones zone (Failed c))
            | Ok request =>
                (Return true,
                 t ++ submission "DELETE" subdomain domain ip zones zone (Ok request))
            end
        | _ => (Raise wrong_zones, t ++ [EvListHostedZonesByName domain (Ok zones)])
        end
    end.
Proof.
  rewrite register_dns_run. cbn [action_of].
  destruct (r53_list_hosted_zones_by_name aws t domain) as [zones|c]; [|reflexivity].
  cbn zeta. destruct (HostedZones zones) as [|zone [|zone' more]]; try reflexivity.
  destruct (r53_change_resource_record_sets aws _ _ _) as [request|c]; [|reflexivity].
  now rewrite propagate_delete.
Qed.

(** Every way an upsert can end. *)
Lemma register_dns_upsert_outcome fuel subdomain domain ip t o t' :
  register_dns aws fuel subdomain domain ip false t = (o, t') ->
  match o with
  | Return b =>
      b = true /\
      exists zones zone request waiting final,
        HostedZones zones = [zone] /\
        (length waiting < fuel)%nat /\ Forall (fun a => ~ in_sync a) waiting /\
        in_sync final /\
        t' = t ++ submission "UPSERT" subdomain domain ip zones zone (Ok request)
               ++ rounds request (waiting ++ [final])
  | Raise e =>
      (exists c, e = ClientError c) \/
      (exists zones,
         e = wrong_zones /\
         r53_list_hosted_zones_by_name aws t domain = Ok zones /\
         length (HostedZones zones) <> 1%nat /\
         t' = t ++ [EvListHostedZonesByName domain (Ok zones)])
  | Diverge =>
      exists zones zone request waiting,
        HostedZones zones = [zone] /\
        length waiting = fuel /\ Forall (fun a => ~ in_sync a) waiting /\
        t' = t ++ submission "UPSERT" subdomain domain ip zones zone (Ok request)
               ++ rounds request waiting
  end.
Proof.
  rewrite register_dns_run. cbn [action_of].
  destruct (r53_list_hosted_zones_by_name aws t domain) as [zones|c].
  2:{ intros [= <- <-]. left. now exists c. }
  cbn zeta. destruct (HostedZones zones) as [|zone [|zone' more]] eqn:Hz.
  - intros [= <- <-]. right. exists zones. now rewrite Hz.
  - destruct (r53_change_resource_record_sets aws _ _ _) as [request|c].
    2:{ intros [= <- <-]. left. now exists c. }
    destruct (propagate aws fuel false request _) as [p t3] eqn:Hp.
    apply propagate_outcome in Hp.
    destruct p as [[]|e|]; intros [= <- <-].
    + split; [reflexivity|].
      destruct Hp as (waiting & final & Hlen & Hw & Hf & ->).
      exists zones, zone, request, waiting, final. now rewrite <- app_assoc.
    + destruct Hp as (waiting & c & _ & _ & -> & _). left. now exists c.
    + destruct Hp as (waiting & Hlen & Hw & ->).
      exists zones, zone, request, waiting. now rewrite <- app_assoc.
  - intros [= <- <-]. right. exists zones. rewrite Hz. cbn. repeat split; lia.
Qed.


End RegisterDns.

(** ** The inventory *)

Section Inventory.

Context (aws : provider).

(** The dict comprehension keeps, for each key, the value of its last entry. *)
Lemma tags_dict_lookup tags k :
  tags_dict tags !! k = Value <$> last (filter (fun tag => Key tag = k) tags).
Proof.
  unfold tags_dict.
  enough (forall d : gmap string string,
            foldl (fun d tag => <[Key tag := Value tag]> d) d tags !! k =
              match last (filter (fun tag => Key tag = k) tags) with
              | Some tag => Some (Value tag)
              | None => d !! k
              end) as H.
  { rewrite H. now destruct (last _). }
  induction tags as [|tag tags IH]; intros d; [reflexivity|].
  cbn [foldl]. rewrite IH, filter_cons. case_decide as Hk.
  - rewrite last_cons. destruct (last _); [reflexivity|].
    subst k. apply lookup_insert_eq.
  - destruct (last _); [reflexivity|]. now apply lookup_insert_ne.
Qed.

(** With unique keys, the mapping holds exactly the entries of the list. *)
Lemma tags_dict_unique tags k v :
  NoDup (Key <$> tags) ->
  tags_dict tags !! k = Some v <-> {| Key := k; Value := v |} ∈ tags.
Proof.
  rewrite tags_dict_lookup.
  induction tags as [|tag tags IH]; intros Hnd.
  - cbn. split; [discriminate | intros H; inversion H].
  - rewrite fmap_cons in Hnd. apply NoDup_cons in Hnd as [Hfresh Hnd].
    rewrite filter_cons.
    case_decide as Hk.
    + assert (filter (fun tag => Key tag = k) tags = []) as ->.
      { destruct (filter _ tags) as [|tag' l'] eqn:Hf; [reflexivity|]. exfalso.
        assert (tag' ∈ filter (fun tag => Key tag = k) tags) as Hin
          by (rewrite Hf; left).
        apply list_elem_of_filter in Hin as [Hk' Hin]. apply Hfresh.
        rewrite Hk, <- Hk'. now apply list_elem_of_fmap_2. }
      cbn. rewrite elem_of_cons. split.
      * intros [= <-]. left. destruct tag; cbn in *. now subst.
      * intros [Heq|Hin]; [now rewrite <- Heq|]. exfalso. apply Hfresh.
        rewrite Hk. apply list_elem_of_fmap. now exists {| Key := k; Value := v |}.
    + rewrite IH by assumption. rewrite elem_of_cons. split; [tauto|].
      intros [Heq|Hin]; [|assumption]. rewrite <- Heq in Hk. now cbn in Hk.
Qed.

Lemma tags_dict_key tags k :
  is_Some (tags_dict tags !! k) <-> k ∈ Key <$> tags.
Proof.
  rewrite tags_dict_lookup, fmap_is_Some, last_is_Some. split.
  - intros Hne. destruct (filter _ tags) as [|tag l] eqn:Hf; [contradiction|].
    assert (tag ∈ filter (fun tag => Key tag = k) tags) as Hin by (rewrite Hf; left).
    apply list_elem_of_filter in Hin as [<- Hin]. now apply list_elem_of_fmap_2.
  - intros Hin Hnil. apply list_elem_of_fmap in Hin as (tag & -> & Hin).
    assert (tag ∈ filter (fun tag' => Key tag' = Key tag) tags) as Hin'
      by now apply list_elem_of_filter.
    rewrite Hnil in Hin'. inversion Hin'.
Qed.

Lemma comprehension_summarize l t :
  comprehension summarize l t =
    (if forallb tagged l then Return (summary_of <$> l) else Raise (KeyError "Tags"), t).
Proof.
  induction l as [|i l IH]; [reflexivity|].
  rewrite fmap_cons. cbn [comprehension forallb]. rewrite bind_run.
  unfold summarize at 1, tagged at 1. rewrite bind_run.
  destruct (inst_Tags i) as [tags|] eqn:Htags; [|reflexivity].
  rewrite !ret_run, bind_run, IH.
  destruct (forallb tagged l); [|reflexivity].
  rewrite ret_run. unfold summary_of. now rewrite Htags.
Qed.

Lemma list_instances_run t :
  list_instances aws t =
    match ec2client_describe_instances aws t deploy_group_filter with
    | Failed c =>
        (Raise (ClientError c), t ++ [EvDescribeInstances deploy_group_filter (Failed c)])
    | Ok resp =>
        (if forallb tagged (inventory resp)
         then Return (summary_of <$> inventory resp)
         else Raise (KeyError "Tags"),
         t ++ [EvDescribeInstances deploy_group_filter (Ok resp)])
    end.
Proof.
  unfold list_instances, ec2client_dot_describe_instances.
  rewrite bind_run, call_run. fold deploy_group_filter.
  destruct (ec2client_describe_instances aws t deploy_group_filter) as [resp|c];
    [|reflexivity].
  cbn zeta. fold (inventory resp).
  rewrite bind_run, comprehension_summarize.
  now destruct (forallb tagged (inventory resp)).
Qed.

Lemma comprehension_if_name name l t :
  comprehension_if (name_is name) l t =
    (if forallb has_name l then Return (List.filter (named name) l)
     else Raise (KeyError "Name"), t).
Proof.
  induction l as [|s l IH]; [reflexivity|].
  cbn [comprehension_if forallb List.filter]. rewrite bind_run.
  unfold name_is at 1, getitem, has_name at 1, named at 1. rewrite bind_run.
  destruct (sum_Tags s !! "Name") as [v|]; [|reflexivity].
  rewrite !ret_run, bind_run, IH.
  destruct (forallb has_name l); [|reflexivity].
  rewrite ret_run. cbn [andb]. repeat case_bool_decide; congruence.
Qed.

Lemma has_name_summary i :
  has_name (summary_of i) = true <-> has_key "Name" i.
Proof.
  unfold has_name, has_key, summary_of. cbn [sum_Tags].
  rewrite <- tags_dict_key. destruct (tags_dict _ !! "Name"); split;
    try done; intros [? [=]].
Qed.

End Inventory.

(** ** [create_instance] *)

Section CreateInstance.

Context (aws : provider) (creds : Creds).

(** [create_instance], call by call. *)
Lemma create_instance_run name t :
  create_instance aws creds name t =
    let req := create_request creds name in
    match ec2_create_instances aws t req with
    | Failed c => (Raise (ClientError c), t ++ [EvCreateInstances req (Failed c)])
    | Ok response =>
        let t1 := t ++ [EvCreateInstances req (Ok response)] in
        match response with
        | [] => (Raise IndexError, t1)
        | first :: _ =>
            let id := instance_id first in
            match ec2_wait_until_running aws t1 id with
            | Failed c => (Raise (ClientError c), t1 ++ [EvWaitUntilRunning id (Failed c)])
            | Ok u =>
                let t2 := t1 ++ [EvWaitUntilRunning id (Ok u);
                                 EvPrint [PStr "Launched "; PStr id]] in
                match ec2_load aws t2 id with
                | Failed c => (Raise (ClientError c), t2 ++ [EvLoad id (Failed c)])
                | Ok d =>
                    (Return {| instance_id := id; meta_data := Some d |},
                     t2 ++ [EvLoad id (Ok d);
                            EvPrint [PStr "IP: "; PAddr (PublicIpAddress d)]])
                end
            end
        end
    end.
Proof.
  unfold create_instance, ec2_dot_create_instances. rewrite bind_run, call_run.
  cbn zeta. destruct (ec2_create_instances aws t _) as [response|c]; [|reflexivity].
  rewrite bind_run. destruct response as [|first more]; [reflexivity|].
  cbn [subscript lookup list_lookup]. rewrite ret_run, bind_run.
  unfold wait_until_running. rewrite call_run.
  destruct (ec2_wait_until_running aws _ _) as [u|c]; [|reflexivity].
  rewrite bind_run. unfold print at 1, emit. rewrite bind_run.
  unfold public_ip_address, ec2_dot_Instance. cbn [meta_data instance_id].
  rewrite bind_run, call_run, <- !app_assoc. cbn [app].
  destruct (ec2_load aws _ _) as [d|c]; [|now rewrite <- !app_assoc].
  rewrite ret_run, bind_run. unfold print, emit. rewrite ret_run, <- !app_assoc.
  reflexivity.
Qed.

End CreateInstance.

(** ** [terminate_instances] *)

Section Terminate.

Context (aws : provider).

Lemma countdown_run (l : list Z) : forall t,
  for_ l (fun i => print [PInt (10 - i)];; time_sleep 1) t =
    (Return tt, t ++ flat_map (fun i => [EvPrint [PInt (10 - i)]; EvSleep 1]) l).
Proof.
  induction l as [|i l IH]; intros t.
  - cbn. now rewrite app_nil_r.
  - cbn [for_ flat_map]. rewrite bind_run, bind_run. unfold print, time_sleep, emit.
    rewrite IH, <- !app_assoc. reflexivity.
Qed.

(** The loop of deletions: it cannot diverge; when it returns, each matched
    summary got its own lookup and DELETE submission, in order; when it
    raises, it is on a zone count or a client error. *)
Lemma deletions_run fuel name domain (ms : list Summary) : forall t o t',
  for_ ms (fun instance =>
             register_dns aws fuel name domain (sum_PublicIpAddress instance) true) t
    = (o, t') ->
  match o with
  | Return _ =>
      exists dels, Forall2 (deletion name domain) ms dels /\ t' = t ++ concat dels
  | Raise e =>
      (e = wrong_zones \/ exists c, e = ClientError c) /\
      exists evs, t' = t ++ evs /\ Forall (fun e => is_dns e = true) evs
  | Diverge => False
  end.
Proof.
  induction ms as [|m ms IH]; intros t o t'.
  - intros [= <- <-]. exists []. split; [constructor|]. cbn. now rewrite app_nil_r.
  - cbn [for_]. rewrite bind_run, register_dns_delete_run.
    destruct (r53_list_hosted_zones_by_name aws t domain) as [zones|c].
    2:{ intros [= <- <-]. split; [right; now exists c|].
        eexists; split; [reflexivity|]. now repeat constructor. }
    destruct (HostedZones zones) as [|zone [|zone' more]] eqn:Hz.
    1,3: intros [= <- <-]; (split; [now left|]); eexists; (split; [reflexivity|]);
         now repeat constructor.
    destruct (r53_change_resource_record_sets aws _ _ _) as [request|c].
    2:{ intros [= <- <-]. split; [right; now exists c|].
        eexists; split; [reflexivity|]. now repeat constructor. }
    intros Hrest. apply IH in Hrest. destruct o as [[]|e|]; [| |exact Hrest].
    + destruct Hrest as (dels & Hdels & ->).
      exists (submission "DELETE" name domain (sum_PublicIpAddress m) zones zone (Ok request)
                :: dels).
      split; [|now rewrite concat_cons, <- app_assoc].
      constructor; [|exact Hdels]. now exists zones, zone, request.
    + destruct Hrest as (He & evs & -> & Hevs). split; [exact He|].
      eexists; split; [now rewrite <- app_assoc|].
      apply Forall_app. split; [now repeat constructor | exact Hevs].
Qed.

(** [terminate_instances], call by call. *)
Lemma terminate_instances_run fuel name t :
  terminate_instances aws fuel name t =
    match ec2client_describe_instances aws t deploy_group_filter with
    | Failed c =>
        (Raise (ClientError c), t ++ [EvDescribeInstances deploy_group_filter (Failed c)])
    | Ok resp =>
        let t1 := t ++ [EvDescribeInstances deploy_group_filter (Ok resp)] in
        if forallb tagged (inventory resp) then
          let instances := summary_of <$> inventory resp in
          let t2 := t1 ++ [EvPrint [PStr "All instances: "; PSummaries instances]] in
          if forallb has_name instances then
            let matching := List.filter (named name) instances in
            let t3 := t2 ++ [EvPrint [PStr "Matching instances: "; PSummaries matching]]
                         ++ countdown ++ [EvPrint [PStr "Removing DNS"]] in
            match for_ matching (fun instance =>
                    register_dns aws fuel name "learning-observer.org"
                      (sum_PublicIpAddress instance) true) t3 with
            | (Return _, t4) =>
                let t5 := t4 ++ [EvPrint [PStr "Terminating"]] in
                let ids := sum_InstanceId <$> matching in
                match ec2client_terminate_instances aws t5 ids with
                | Ok u => (Return (length matching),
                           t5 ++ [EvTerminateInstances ids (Ok u)])
                | Failed c => (Raise (ClientError c),
                               t5 ++ [EvTerminateInstances ids (Failed c)])
                end
            | (Raise e, t4) => (Raise e, t4)
            | (Diverge, t4) => (Diverge, t4)
            end
          else (Raise (KeyError "Name"), t2)
        else (Raise (KeyError "Tags"), t1)
    end.
Proof.
  unfold terminate_instances. rewrite bind_run, list_instances_run.
  destruct (ec2client_describe_instances aws t deploy_group_filter) as [resp|c];
    [|reflexivity].
  cbn zeta. destruct (forallb tagged (inventory resp)); [|reflexivity].
  rewrite bind_run. unfold print at 1, emit. rewrite bind_run, comprehension_if_name.
  destruct (forallb has_name (summary_of <$> inventory resp)); [|reflexivity].
  rewrite bind_run. unfold print at 1, emit.
  rewrite bind_run, countdown_run. fold countdown.
  rewrite bind_run. unfold print at 1, emit. rewrite bind_run.
  rewrite <- !app_assoc. cbn [app].
  match goal with |- context [for_ ?l ?f ?x] => destruct (for_ l f x) as [[[]|e|] t4] end;
    try reflexivity.
  rewrite bind_run. unfold print at 1, emit. rewrite bind_run.
  unfold ec2client_dot_terminate_instances. rewrite call_run.
  destruct (ec2client_terminate_instances aws _ _) as [u|c]; reflexivity.
Qed.

(** A call that returned, in terms of the answer to its inventory query. *)
Lemma terminate_instances_returned fuel name t resp n t' :
  ec2client_describe_instances aws t deploy_group_filter = Ok resp ->
  terminate_instances aws fuel name t = (Return n, t') ->
  exists dels u,
    let instances := summary_of <$> inventory resp in
    let matching := List.filter (named name) instances in
    n = length matching /\
    Forall2 (deletion name "learning-observer.org") matching dels /\
    t' = t ++ [ EvDescribeInstances deploy_group_filter (Ok resp);
                EvPrint [PStr "All instances: "; PSummaries instances];
                EvPrint [PStr "Matching instances: "; PSummaries matching] ]
           ++ countdown
           ++ [ EvPrint [PStr "Removing DNS"] ]
           ++ concat dels
           ++ [ EvPrint [PStr "Terminating"];
                EvTerminateInstances (sum_InstanceId <$> matching) (Ok u) ].
Proof.
  intros Hresp. rewrite terminate_instances_run, Hresp.
  cbn zeta. destruct (forallb tagged (inventory resp)); [|discriminate].
  destruct (forallb has_name _); [|discriminate].
  destruct (for_ _ _ _) as [[[]|e|] t4] eqn:Hloop; try discriminate.
  apply deletions_run in Hloop as (dels & Hdels & ->).
  destruct (ec2client_terminate_instances aws _ _) as [u|c]; [|discriminate].
  intros [= <- <-]. exists dels, u. cbn zeta.
  split; [reflexivity|]. split; [exact Hdels|].
  rewrite <- !app_assoc. reflexivity.
Qed.

Lemma has_key_tagged k i : has_key k i -> tagged i = true.
Proof.
  unfold has_key, tagged. destruct (inst_Tags i); [reflexivity|].
  cbn. intros H. inversion H.
Qed.

Lemma has_marker_tagged i : has_marker i -> tagged i = true.
Proof.
  unfold has_marker, tagged. destruct (inst_Tags i); [reflexivity|].
  cbn. intros H. inversion H.
Qed.

Lemma forallb_tagged l :
  Forall (fun i => tagged i = true) l -> forallb tagged l = true.
Proof. induction 1 as [|i l Hi _ IH]; [reflexivity|]. cbn. now rewrite Hi. Qed.

Lemma forallb_has_name l :
  forallb has_name (summary_of <$> l) = true <-> Forall (has_key "Name") l.
Proof.
  induction l as [|i l IH]; [cbn; split; [constructor|reflexivity]|].
  rewrite fmap_cons. cbn [forallb]. rewrite andb_true_iff, IH, has_name_summary.
  rewrite Forall_cons. reflexivity.
Qed.

Lemma filter_named_nil name (l : list Summary) :
  Forall (fun s => sum_Tags s !! "Name" <> Some name) l ->
  List.filter (named name) l = [].
Proof.
  induction 1 as [|s l Hs _ IH]; [reflexivity|].
  cbn [List.filter]. unfold named at 1. now rewrite bool_decide_false.
Qed.


Context {Group : Type} (group_from_poolstring : string -> Group).

Lemma name_to_group_run machine_name t :
  name_to_group aws group_from_poolstring machine_name t =
    match ec2client_describe_instances aws t deploy_group_filter with
    | Failed c =>
        (Raise (ClientError c), t ++ [EvDescribeInstances deploy_group_filter (Failed c)])
    | Ok resp =>
        let t1 := t ++ [EvDescribeInstances deploy_group_filter (Ok resp)] in
        if forallb tagged (inventory resp) then
          let instances := summary_of <$> inventory resp in
          if forallb has_name instances then
            let pool := String.concat " "
                          (sum_PublicIpAddress <$> List.filter (named machine_name) instances) in
            (Return (group_from_poolstring pool), t1 ++ [EvPrint [PStr pool]])
          else (Raise (KeyError "Name"), t1)
        else (Raise (KeyError "Tags"), t1)
    end.
Proof.
  unfold name_to_group. rewrite bind_run, list_instances_run.
  destruct (ec2client_describe_instances aws t deploy_group_filter) as [resp|c];
    [|reflexivity].
  cbn zeta. destruct (forallb tagged (inventory resp)); [|reflexivity].
  rewrite bind_run, comprehension_if_name.
  now destruct (forallb has_name (summary_of <$> inventory resp)).
Qed.

End Terminate.

(** ** Claims on [register_dns] *)



(** C2. When the zone lookup for [domain] answers with no zone, or with two
    or more, [register_dns] raises the exception "Wrong number of hosted
    zones!" and the lookup is the only call it made: no change was submitted
    to any zone.  When the lookup answers with exactly one zone, that
    exception is not raised, however the call ends. *)
Theorem register_dns_zone_count aws fuel subdomain domain ip unregister t zones :
  r53_list_hosted_zones_by_name aws t domain = Ok zones ->
  (length (HostedZones zones) <> 1%nat ->
   register_dns aws fuel subdomain domain ip unregister t =
     (Raise (Exception "Wrong number of hosted zones!"),
      t ++ [EvListHostedZonesByName domain (Ok zones)])) /\
  (length (HostedZones zones) = 1%nat ->
   forall t',
     register_dns aws fuel subdomain domain ip unregister t <>
       (Raise (Exception "Wrong number of hosted zones!"), t')).
Proof.
  intros Hz. split.
  - intros Hlen. rewrite register_dns_run, Hz. cbn zeta.
    destruct (HostedZones zones) as [|zone [|zone' more]]; try reflexivity.
    now cbn in Hlen.
  - intros Hlen t'. destruct unregister.
    + rewrite register_dns_delete_run, Hz.
      destruct (HostedZones zones) as [|zone [|zone' more]]; try discriminate.
      now destruct (r53_change_resource_record_sets aws _ _ _).
    + intros Hrun. apply register_dns_upsert_outcome in Hrun.
      destruct Hrun as [[c [=]]|(zones' & _ & Hz' & Hlen' & _)].
      rewrite Hz in Hz'. injection Hz' as <-. contradiction.
Qed.

(** Both boundary counts, and the count of one. *)
Lemma register_dns_zone_count_witness :
  (register_dns (Sim.aws Sim.no_zone) 5 "alice" "example.org" "203.0.113.7" false [] =
     (Raise (Exception "Wrong number of hosted zones!"),
      [] ++ [EvListHostedZonesByName "example.org" (Ok {| HostedZones := [] |})])) /\
  (register_dns (Sim.aws Sim.two_zones) 5 "alice" "example.org" "203.0.113.7" true [] =
     (Raise (Exception "Wrong number of hosted zones!"),
      [] ++ [EvListHostedZonesByName "example.org"
               (Ok {| HostedZones := Sim.zones_of Sim.two_zones "example.org" |})])) /\
  (forall t',
     register_dns (Sim.aws Sim.plain) 5 "alice" "example.org" "203.0.113.7" false [] <>
       (Raise (Exception "Wrong number of hosted zones!"), t')).
Proof.
  split; [|split].
  - apply (register_dns_zone_count (Sim.aws Sim.no_zone) 5 "alice" "example.org"
             "203.0.113.7" false [] {| HostedZones := [] |}); [reflexivity | cbn; lia].
  - apply (register_dns_zone_count (Sim.aws Sim.two_zones) 5 "alice" "example.org"
             "203.0.113.7" true []
             {| HostedZones := Sim.zones_of Sim.two_zones "example.org" |});
      [reflexivity | cbn; lia].
  - apply (register_dns_zone_count (Sim.aws Sim.plain) 5 "alice" "example.org"
             "203.0.113.7" false []
             {| HostedZones := Sim.zones_of Sim.plain "example.org" |}); reflexivity.
Defined.

(** C9. An upsert that returns has polled at least once: after the
    submission comes a full round (the print, a one-second sleep, a
    [get_change] on the id of the submission's answer), whatever status the
    submission's answer carried, INSYNC included.  Whether a further round
    follows is decided by the answer to the poll alone: the trace stops
    there exactly when that answer is in sync. *)
Theorem register_dns_polls_at_least_once aws fuel subdomain domain ip t b t' :
  register_dns aws fuel subdomain domain ip false t = (Return b, t') ->
  exists zones zone request answer rest,
    t' = t ++ submission "UPSERT" subdomain domain ip zones zone (Ok request)
           ++ round request (Ok answer) ++ rest /\
    (rest = [] <-> in_sync answer).
Proof.
  intros Hrun. apply register_dns_upsert_outcome in Hrun.
  destruct Hrun as (_ & zones & zone & request & waiting & final & _ & _ & Hw & Hf & ->).
  exists zones, zone, request.
  destruct waiting as [|answer waiting]; cbn [app rounds].
  - exists final, []. split; [reflexivity|]. tauto.
  - exists answer, (rounds answer (waiting ++ [final])). split; [reflexivity|].
    apply Forall_cons in Hw as [Hn _]. split; [|tauto].
    now destruct waiting.
Qed.

(** The submission is answered INSYNC, the call still sleeps and polls; the
    poll is answered PENDING and a second round follows. *)
Lemma register_dns_polls_at_least_once_witness :
  exists t',
    register_dns (Sim.aws Sim.eager) 5 "alice" "example.org" "203.0.113.7" false []
      = (Return true, t') /\
    Some (EvChangeResourceRecordSets "/hostedzone/Z1"
            (change_batch "UPSERT" "alice" "example.org" "203.0.113.7")
            (Ok {| ChangeInfo := {| Id := "/change/C0"; Status := "INSYNC" |} |}))
      = t' !! 1%nat /\
    length t' = 8%nat /\
    exists zones zone request answer rest,
      t' = [] ++ submission "UPSERT" "alice" "example.org" "203.0.113.7"
                   zones zone (Ok request)
              ++ round request (Ok answer) ++ rest /\
      (rest = [] <-> in_sync answer).
Proof.
  exists (register_dns (Sim.aws Sim.eager) 5 "alice" "example.org" "203.0.113.7"
            false []).2.
  split; [run|]. split; [run|]. split; [run|].
  apply (register_dns_polls_at_least_once (Sim.aws Sim.eager) 5
           "alice" "example.org" "203.0.113.7" [] true). run.
Defined.

(** ** Claims on [terminate_instances] *)




(** C3, as the code has it.  When the inventory query is answered, every
    instance listed has a [Name] tag and none of them is named [name], the
    call makes no DNS call at all, but after the countdown it does submit the
    one terminate request, with an empty list of ids; it returns 0 when the
    provider accepts that request and raises the provider's error
    otherwise. *)
Theorem terminate_instances_no_match aws fuel name t resp :
  ec2client_describe_instances aws t deploy_group_filter = Ok resp ->
  Forall (has_key "Name") (inventory resp) ->
  Forall (fun i => sum_Tags (summary_of i) !! "Name" <> Some name) (inventory resp) ->
  let before :=
    t ++ [ EvDescribeInstances deploy_group_filter (Ok resp);
           EvPrint [PStr "All instances: "; PSummaries (summary_of <$> inventory resp)];
           EvPrint [PStr "Matching instances: "; PSummaries []] ]
      ++ countdown
      ++ [ EvPrint [PStr "Removing DNS"]; EvPrint [PStr "Terminating"] ] in
  Forall (fun e => is_dns e = false) (drop (length t) before) /\
  terminate_instances aws fuel name t =
    match ec2client_terminate_instances aws before [] with
    | Ok u => (Return 0%nat, before ++ [EvTerminateInstances [] (Ok u)])
    | Failed c => (Raise (ClientError c), before ++ [EvTerminateInstances [] (Failed c)])
    end.
Proof.
  intros Hresp Hnames Hnone before. split.
  - unfold before. rewrite drop_app_length. now repeat constructor.
  - rewrite terminate_instances_run, Hresp. cbn zeta.
    rewrite forallb_tagged
      by (eapply Forall_impl; [exact Hnames | intros i; apply has_key_tagged]).
    rewrite (proj2 (forallb_has_name _) Hnames).
    rewrite filter_named_nil by now apply Forall_fmap.
    cbn [for_ fmap list_fmap length]. rewrite ret_run.
    unfold before. rewrite <- !app_assoc. cbn [app].
    now destruct (ec2client_terminate_instances aws _ _).
Qed.

(** The inventory holds bob alone; nobody is named ghost. *)
Lemma terminate_instances_no_match_witness :
  let aws := Sim.aws (Sim.with_fleet [Sim.machine "i-b" "bob" (Some "203.0.113.2")]) in
  let resp := {| Reservations :=
                   [ {| Instances := [Sim.machine "i-b" "bob" (Some "203.0.113.2")] |} ] |} in
  let before :=
    [] ++ [ EvDescribeInstances deploy_group_filter (Ok resp);
            EvPrint [PStr "All instances: "; PSummaries (summary_of <$> inventory resp)];
            EvPrint [PStr "Matching instances: "; PSummaries []] ]
       ++ countdown
       ++ [ EvPrint [PStr "Removing DNS"]; EvPrint [PStr "Terminating"] ] in
  Forall (fun e => is_dns e = false) (drop (length (@nil event)) before) /\
  terminate_instances aws 0 "ghost" [] =
    match ec2client_terminate_instances aws before [] with
    | Ok u => (Return 0%nat, before ++ [EvTerminateInstances [] (Ok u)])
    | Failed c => (Raise (ClientError c), before ++ [EvTerminateInstances [] (Failed c)])
    end.
Proof.
  intros aws resp.
  apply (terminate_instances_no_match aws 0 "ghost" [] resp).
  - reflexivity.
  - repeat constructor; apply (bool_decide_unpack _); vm_compute; exact I.
  - repeat constructor. vm_compute. discriminate.
Defined.

(** C3, as the claim has it, fails: with bob alone in the inventory,
    [terminate_instances "ghost"] returns 0 and has sent a terminate request
    (its list of ids empty) to the provider. *)
Lemma terminate_instances_no_match_calls_terminate :
  exists t',
    terminate_instances
      (Sim.aws (Sim.with_fleet [Sim.machine "i-b" "bob" (Some "203.0.113.2")]))
      0 "ghost" [] = (Return 0%nat, t') /\
    List.filter is_terminate t' = [EvTerminateInstances [] (Ok tt)] /\
    List.filter is_dns t' = [].
Proof.
  exists (terminate_instances
            (Sim.aws (Sim.with_fleet [Sim.machine "i-b" "bob" (Some "203.0.113.2")]))
            0 "ghost" []).2.
  split; [run|]. split; run.
Qed.




(** C10. The lookup of the [Name] tag is not guarded.  When the inventory
    lists only instances that carry the deployment marker and one of them has
    no [Name] tag, [terminate_instances] raises [KeyError "Name"] right after
    printing the inventory (before the countdown, any DNS call and the
    terminate request), and [name_to_group] raises it right after the
    inventory query, whatever name is asked for.  When every instance listed
    has a [Name] tag, neither function raises a [KeyError]. *)
Theorem name_lookup_unguarded aws fuel name t resp
    {Group : Type} (group_from_poolstring : string -> Group) :
  ec2client_describe_instances aws t deploy_group_filter = Ok resp ->
  Forall has_marker (inventory resp) ->
  (~ Forall (has_key "Name") (inventory resp) ->
   terminate_instances aws fuel name t =
     (Raise (KeyError "Name"),
      t ++ [ EvDescribeInstances deploy_group_filter (Ok resp);
             EvPrint [PStr "All instances: ";
                      PSummaries (summary_of <$> inventory resp)] ]) /\
   name_to_group aws group_from_poolstring name t =
     (Raise (KeyError "Name"),
      t ++ [ EvDescribeInstances deploy_group_filter (Ok resp) ])) /\
  (Forall (has_key "Name") (inventory resp) ->
   forall key t',
     terminate_instances aws fuel name t <> (Raise (KeyError key), t') /\
     name_to_group aws group_from_poolstring name t <> (Raise (KeyError key), t')).
Proof.
  intros Hresp Hmarked.
  assert (forallb tagged (inventory resp) = true) as Htagged
    by (apply forallb_tagged; eapply Forall_impl;
        [exact Hmarked | intros i; apply has_marker_tagged]).
  split.
  - intros Hnames.
    assert (forallb has_name (summary_of <$> inventory resp) = false) as Hfalse.
    { destruct (forallb has_name _) eqn:Hb; [|reflexivity].
      now apply forallb_has_name in Hb. }
    rewrite terminate_instances_run, name_to_group_run, Hresp. cbn zeta.
    rewrite Htagged, Hfalse. split; [|reflexivity].
    now rewrite <- app_assoc.
  - intros Hnames key t'.
    rewrite terminate_instances_run, name_to_group_run, Hresp. cbn zeta.
    rewrite Htagged, (proj2 (forallb_has_name _) Hnames).
    split; [|discriminate].
    destruct (for_ _ _ _) as [[[]|e|] t4] eqn:Hloop.
    + now destruct (ec2client_terminate_instances aws _ _).
    + apply deletions_run in Hloop as ([->|(c & ->)] & _); discriminate.
    + discriminate.
Qed.

(** An inventory with alice and an instance that has the marker and no name;
    and the inventory with alice alone. *)
Lemma name_lookup_unguarded_witness :
  let unnamed := [ Sim.machine "i-a" "alice" (Some "203.0.113.1"); Sim.anonymous "i-x" ] in
  let all_named := [ Sim.machine "i-a" "alice" (Some "203.0.113.1") ] in
  let answer (l : list InstanceDesc) :=
    {| Reservations := (fun d => {| Instances := [d] |}) <$> l |} in
  (terminate_instances (Sim.aws (Sim.with_fleet unnamed)) 0 "alice" [] =
     (Raise (KeyError "Name"),
      [] ++ [ EvDescribeInstances deploy_group_filter (Ok (answer unnamed));
              EvPrint [PStr "All instances: ";
                       PSummaries (summary_of <$> inventory (answer unnamed))] ]) /\
   name_to_group (Sim.aws (Sim.with_fleet unnamed)) (fun pool => [pool]) "alice" [] =
     (Raise (KeyError "Name"),
      [] ++ [ EvDescribeInstances deploy_group_filter (Ok (answer unnamed)) ])) /\
  (forall key t',
     terminate_instances (Sim.aws (Sim.with_fleet all_named)) 0 "alice" []
       <> (Raise (KeyError key), t') /\
     name_to_group (Sim.aws (Sim.with_fleet all_named)) (fun pool => [pool]) "alice" []
       <> (Raise (KeyError key), t')).
Proof.
  intros unnamed all_named answer. split.
  - apply (name_lookup_unguarded (Sim.aws (Sim.with_fleet unnamed)) 0 "alice" []
             (answer unnamed) (fun pool => [pool])).
    + reflexivity.
    + repeat constructor; apply (bool_decide_unpack _); vm_compute; exact I.
    + intros H. apply Forall_cons in H as [_ H]. apply Forall_cons in H as [H _].
      assert (~ has_key "Name" (Sim.anonymous "i-x")) as Hno
        by (apply (bool_decide_eq_false_1 (has_key "Name" (Sim.anonymous "i-x")));
            vm_compute; reflexivity).
      contradiction.
  - apply (name_lookup_unguarded (Sim.aws (Sim.with_fleet all_named)) 0 "alice" []
             (answer all_named) (fun pool => [pool])).
    + reflexivity.
    + repeat constructor; apply (bool_decide_unpack _); vm_compute; exact I.
    + repeat constructor; apply (bool_decide_unpack _); vm_compute; exact I.
Defined.

(** ** Claims on [create_instance] and [list_instances] *)




Lemma summary_of_summarizes i :
  tagged i = true -> summarizes i (summary_of i).
Proof.
  unfold tagged, summarizes, summary_of. cbn [sum_InstanceId sum_Tags sum_PublicIpAddress].
  destruct (inst_Tags i) as [tags|]; [intros _|discriminate].
  split; [reflexivity|]. split; [|now destruct (PublicIpAddress i)].
  exists tags. split; [reflexivity|]. cbn [default]. split.
  - intros k. apply tags_dict_lookup.
  - intros Hnd k v. now apply tags_dict_unique.
Qed.

(** C6. [list_instances] asks for the instances that carry the deployment
    marker, and when the answer lists such instances only, it returns one
    summary per instance of the answer, reservations flattened and order
    kept, whatever the state of the instance: the id, the mapping of the tag
    list, and the public address, or the string "--.--.--.--" when the
    instance has none.  The address of a summary is a string in every
    case. *)
Theorem list_instances_summaries aws t resp :
  ec2client_describe_instances aws t deploy_group_filter = Ok resp ->
  Forall has_marker (concat (Instances <$> Reservations resp)) ->
  exists summaries,
    list_instances aws t =
      (Return summaries, t ++ [EvDescribeInstances deploy_group_filter (Ok resp)]) /\
    Forall2 summarizes (concat (Instances <$> Reservations resp)) summaries.
Proof.
  intros Hresp Hmarked. exists (summary_of <$> inventory resp).
  assert (Forall (fun i => tagged i = true) (inventory resp)) as Htagged
    by (eapply Forall_impl; [exact Hmarked | intros i; apply has_marker_tagged]).
  split.
  - now rewrite list_instances_run, Hresp, forallb_tagged.
  - apply Forall2_fmap_r, Forall_Forall2_diag.
    eapply Forall_impl; [exact Htagged | intros i; apply summary_of_summarizes].
Qed.

(** A fleet of four: alice, running; carol, terminated and still listed; an
    instance of the deployment without a name and without an address; and an
    instance outside the deployment, which the provider leaves out.  Two
    instances come back with the placeholder for an address. *)
Lemma list_instances_summaries_witness :
  let carol := {| InstanceId := "i-c";
                  inst_Tags := Some [ {| Key := "Name"; Value := "carol" |};
                                      {| Key := "deploy-group"; Value := "learning-observer" |} ];
                  PublicIpAddress := None; State := "terminated" |} in
  let fleet := [ Sim.machine "i-a" "alice" (Some "203.0.113.1"); carol;
                 Sim.anonymous "i-x"; Sim.stranger "i-s" ] in
  let aws := Sim.aws (Sim.with_fleet fleet) in
  let resp := {| Reservations :=
                   [ {| Instances := [Sim.machine "i-a" "alice" (Some "203.0.113.1")] |};
                     {| Instances := [carol] |};
                     {| Instances := [Sim.anonymous "i-x"] |} ] |} in
  exists summaries,
    list_instances aws [] =
      (Return summaries, [] ++ [EvDescribeInstances deploy_group_filter (Ok resp)]) /\
    Forall2 summarizes (concat (Instances <$> Reservations resp)) summaries /\
    sum_InstanceId <$> summaries = ["i-a"; "i-c"; "i-x"] /\
    sum_PublicIpAddress <$> summaries = ["203.0.113.1"; "--.--.--.--"; "--.--.--.--"] /\
    (fun s => sum_Tags s !! "Name") <$> summaries = [Some "alice"; Some "carol"; None].
Proof.
  intros carol fleet aws resp.
  destruct (list_instances_summaries aws [] resp) as (summaries & Hrun & Hall).
  - reflexivity.
  - repeat constructor; apply (bool_decide_unpack _); vm_compute; exact I.
  - exists summaries. split; [exact Hrun|]. split; [exact Hall|].
    assert (list_instances aws [] =
              (Return (summary_of <$> inventory resp),
               [] ++ [EvDescribeInstances deploy_group_filter (Ok resp)])) as Hrun'
      by run.
    rewrite Hrun' in Hrun. injection Hrun as <-. repeat split; run.
Defined.

(** ** The parameters built into the requests *)

Lemma rounds_not_change request answers :
  Forall (fun e => is_change e = false) (rounds request answers).
Proof.
  revert request. induction answers as [|answer rest IH]; intros request.
  - constructor.
  - cbn [rounds]. apply Forall_app. split; [now repeat constructor | apply IH].
Qed.

(** Whatever the end of a [register_dns], the changes it submitted are at
    most the one of its [ChangeBatch]. *)
Lemma register_dns_changes aws fuel subdomain domain ip unregister t o t' :
  register_dns aws fuel subdomain domain ip unregister t = (o, t') ->
  exists evs,
    t' = t ++ evs /\
    forall zone batch answer,
      EvChangeResourceRecordSets zone batch answer ∈ evs ->
      batch = change_batch (action_of unregister) subdomain domain ip.
Proof.
  intros Hrun.
  enough (exists evs, t' = t ++ evs /\
            Forall (fun e => forall zone batch answer,
                      e = EvChangeResourceRecordSets zone batch answer ->
                      batch = change_batch (action_of unregister) subdomain domain ip) evs)
    as (evs & -> & Hall).
  { exists evs. split; [reflexivity|]. intros zone batch answer Hin.
    eapply Forall_forall in Hall; [|exact Hin]. now eapply Hall. }
  assert (forall l, Forall (fun e => is_change e = false) l ->
            Forall (fun e => forall zone batch answer,
                      e = EvChangeResourceRecordSets zone batch answer ->
                      batch = change_batch (action_of unregister) subdomain domain ip) l)
    as Hquiet.
  { intros l Hl. eapply Forall_impl; [exact Hl|].
    intros e He zone batch answer ->. discriminate. }
  rewrite register_dns_run in Hrun.
  destruct (r53_list_hosted_zones_by_name aws t domain) as [zones|c].
  2:{ injection Hrun as <- <-. eexists. split; [reflexivity|].
      apply Hquiet. now repeat constructor. }
  cbn zeta in Hrun. destruct (HostedZones zones) as [|zone [|zone' more]].
  1,3: injection Hrun as <- <-; eexists; (split; [reflexivity|]);
       apply Hquiet; now repeat constructor.
  assert (forall answer,
            Forall (fun e => forall zone' batch answer',
                      e = EvChangeResourceRecordSets zone' batch answer' ->
                      batch = change_batch (action_of unregister) subdomain domain ip)
              (submission (action_of unregister) subdomain domain ip zones zone answer))
    as Hsub.
  { intros answer. repeat constructor; intros zone' batch answer'; [discriminate|].
    now intros [= _ <- _]. }
  destruct (r53_change_resource_record_sets aws _ _ _) as [request|c].
  2:{ injection Hrun as <- <-. eexists. split; [reflexivity|]. apply Hsub. }
  destruct unregister.
  - rewrite propagate_delete in Hrun. injection Hrun as <- <-.
    eexists. split; [reflexivity|]. apply Hsub.
  - destruct (propagate aws fuel false request _) as [p t3] eqn:Hp.
    apply propagate_outcome in Hp.
    destruct p as [[]|e|]; injection Hrun as <- <-.
    + destruct Hp as (waiting & final & _ & _ & _ & ->).
      eexists. split; [now rewrite <- app_assoc|].
      apply Forall_app. split; [apply Hsub | apply Hquiet, rounds_not_change].
    + destruct Hp as (waiting & c & _ & _ & _ & ->).
      eexists. split; [now rewrite <- app_assoc|].
      apply Forall_app. split; [apply Hsub|]. apply Hquiet, Forall_app.
      split; [apply rounds_not_change | now repeat constructor].
    + destruct Hp as (waiting & _ & _ & ->).
      eexists. split; [now rewrite <- app_assoc|].
      apply Forall_app. split; [apply Hsub | apply Hquiet, rounds_not_change].
Qed.

(** With one zone, the second call of [register_dns] is the submission of
    its [ChangeBatch] to that zone, and no other change follows. *)
Lemma register_dns_submits aws fuel subdomain domain ip unregister t zones zone :
  r53_list_hosted_zones_by_name aws t domain = Ok zones ->
  HostedZones zones = [zone] ->
  exists answer rest,
    (register_dns aws fuel subdomain domain ip unregister t).2 =
      t ++ [ EvListHostedZonesByName domain (Ok zones);
             EvChangeResourceRecordSets (zone_Id zone)
               (change_batch (action_of unregister) subdomain domain ip) answer ]
        ++ rest /\
    Forall (fun e => is_change e = false) rest.
Proof.
  intros Hz Hone. rewrite register_dns_run, Hz. cbn zeta. rewrite Hone.
  destruct (r53_change_resource_record_sets aws _ _ _) as [request|c].
  2:{ exists (Failed c), []. cbn [snd]. unfold submission.
      rewrite app_nil_r. split; [reflexivity|]. constructor. }
  destruct unregister.
  { rewrite propagate_delete. exists (Ok request), []. cbn [snd]. unfold submission.
    rewrite app_nil_r. split; [reflexivity|]. constructor. }
  destruct (propagate aws fuel false request _) as [p t3] eqn:Hp.
  apply propagate_outcome in Hp. exists (Ok request).
  destruct p as [[]|e|]; cbn [snd].
  - destruct Hp as (waiting & final & _ & _ & _ & ->).
    eexists. split; [unfold submission; now rewrite <- app_assoc|].
    apply rounds_not_change.
  - destruct Hp as (waiting & c & _ & _ & _ & ->).
    eexists. split; [unfold submission; now rewrite <- app_assoc|].
    apply Forall_app. split; [apply rounds_not_change | now repeat constructor].
  - destruct Hp as (waiting & _ & _ & ->).
    eexists. split; [unfold submission; now rewrite <- app_assoc|].
    apply rounds_not_change.
Qed.

Lemma summary_addresses (l : list InstanceDesc) :
  sum_PublicIpAddress <$> (summary_of <$> l) =
    (fun i => match PublicIpAddress i with
              | Some address => address
              | None => "--.--.--.--"
              end) <$> l.
Proof.
  induction l as [|i l IH]; [reflexivity|].
  rewrite !fmap_cons, IH. reflexivity.
Qed.

(** C8. The fixed parameters, as they reach the provider.  The first call of
    [create_instance], whatever follows, is the one creation request, and the
    request is the fixed one: image and size, the device /dev/xvda with a
    volume of 32 GB of type gp2 deleted on termination, one instance, the
    placement, the network interface, and a tag specification for the
    instance with its name, the owner and deploy-group = learning-observer.
    [register_dns] that finds one zone submits, as its second call and
    however it ends later, one change to that zone: the action, type A,
    TTL 15, the record subdomain.domain. (final dot included) and the one
    value given; and no [register_dns] submits any other change.  The one
    call of [list_instances] filters on tag:deploy-group =
    learning-observer, and the addresses it returns are those of the
    instances listed, with "--.--.--.--" for each instance that has none. *)
Theorem fixed_request_parameters aws creds fuel name subdomain domain ip
    (unregister : bool) t :
  let request :=
    {| ImageId := "ami-09e67e426f25ce0d7";
       InstanceType := "t2.nano";
       BlockDeviceMappings :=
         [ {| DeviceName := "/dev/xvda";
              dev_Ebs := {| DeleteOnTermination := true;
                            VolumeSize := 32;
                            VolumeType := "gp2" |} |} ];
       KeyName := aws_keyname creds;
       MinCount := 1;
       MaxCount := 1;
       run_Placement := {| AvailabilityZone := "us-east-1b" |};
       NetworkInterfaces :=
         [ {| SubnetId := aws_subnet_id creds;
              DeviceIndex := 0;
              AssociatePublicIpAddress := true;
              Groups := [aws_security_group creds] |} ];
       TagSpecifications :=
         [ {| ResourceType := "instance";
              spec_Tags :=
                [ {| Key := "Name"; Value := name |};
                  {| Key := "Owner"; Value := owner creds |};
                  {| Key := "deploy-group"; Value := "learning-observer" |} ] |} ] |} in
  let batch :=
    {| Changes :=
         [ {| Action := if unregister then "DELETE" else "UPSERT";
              change_ResourceRecordSet :=
                {| rrs_Name := subdomain +:+ "." +:+ domain +:+ ".";
                   rrs_Type := "A";
                   TTL := 15;
                   ResourceRecords := [ {| rr_Value := ip |} ] |} |} ] |} in
  let filters := [ {| Name := "tag:deploy-group"; Values := ["learning-observer"] |} ] in
  (exists answer rest,
     (create_instance aws creds name t).2 = t ++ EvCreateInstances request answer :: rest /\
     Forall (fun e => match e with EvCreateInstances _ _ => False | _ => True end) rest) /\
  (forall zones zone,
     r53_list_hosted_zones_by_name aws t domain = Ok zones ->
     HostedZones zones = [zone] ->
     exists answer rest,
       (register_dns aws fuel subdomain domain ip unregister t).2 =
         t ++ [ EvListHostedZonesByName domain (Ok zones);
                EvChangeResourceRecordSets (zone_Id zone) batch answer ] ++ rest /\
       Forall (fun e => is_change e = false) rest) /\
  (exists evs,
     (register_dns aws fuel subdomain domain ip unregister t).2 = t ++ evs /\
     forall zone submitted answer,
       EvChangeResourceRecordSets zone submitted answer ∈ evs -> submitted = batch) /\
  (exists answer,
     (list_instances aws t).2 = t ++ [EvDescribeInstances filters answer]) /\
  (forall summaries t',
     list_instances aws t = (Return summaries, t') ->
     exists resp,
       t' = t ++ [EvDescribeInstances filters (Ok resp)] /\
       sum_PublicIpAddress <$> summaries =
         (fun i => match PublicIpAddress i with
                   | Some address => address
                   | None => "--.--.--.--"
                   end) <$> concat (Instances <$> Reservations resp)).
Proof.
  intros request batch filters. split; [|split; [|split; [|split]]].
  - change request with (create_request creds name).
    rewrite create_instance_run. cbn zeta.
    destruct (ec2_create_instances aws t _) as [[|first more]|c];
      [| destruct (ec2_wait_until_running aws _ _) as [u|c];
         [destruct (ec2_load aws _ _) as [d|c]|] |];
      eexists _, _; cbn [snd]; rewrite <- ?app_assoc;
      (split; [reflexivity|]); repeat constructor.
  - intros zones zone Hz Hone.
    exact (register_dns_submits aws fuel subdomain domain ip unregister t zones zone
             Hz Hone).
  - destruct (register_dns aws fuel subdomain domain ip unregister t) as [o t'] eqn:Hrun.
    apply register_dns_changes in Hrun as (evs & -> & Hevs).
    exists evs. split; [reflexivity|]. exact Hevs.
  - rewrite list_instances_run.
    destruct (ec2client_describe_instances aws t deploy_group_filter) as [resp|c];
      eexists; reflexivity.
  - intros summaries t'. rewrite list_instances_run.
    destruct (ec2client_describe_instances aws t deploy_group_filter) as [resp|c];
      [|discriminate].
    destruct (forallb tagged (inventory resp)); [|discriminate].
    intros [= <- <-]. exists resp. split; [reflexivity|]. apply summary_addresses.
Qed.

(** Against the simulated provider: the creation of alice; her upsert and the
    delete of the same record, each with its one submitted change; and the
    listing of a fleet of two, one of them without an address. *)
Lemma fixed_request_parameters_witness :
  let aws := Sim.aws (Sim.with_fleet [ Sim.machine "i-a" "alice" (Some "203.0.113.1");
                                       Sim.anonymous "i-x" ]) in
  let zones := {| HostedZones := Sim.zones_of Sim.plain "example.org" |} in
  let record action :=
    {| Changes :=
         [ {| Action := action;
              change_ResourceRecordSet :=
                {| rrs_Name := "alice.example.org.";
                   rrs_Type := "A";
                   TTL := 15;
                   ResourceRecords := [ {| rr_Value := "203.0.113.7" |} ] |} |} ] |} in
  (exists answer rest,
     (register_dns aws 5 "alice" "example.org" "203.0.113.7" false []).2 =
       [] ++ [ EvListHostedZonesByName "example.org" (Ok zones);
               EvChangeResourceRecordSets "/hostedzone/Z1" (record "UPSERT") answer ]
          ++ rest /\
     Forall (fun e => is_change e = false) rest) /\
  (exists answer rest,
     (register_dns aws 5 "alice" "example.org" "203.0.113.7" true []).2 =
       [] ++ [ EvListHostedZonesByName "example.org" (Ok zones);
               EvChangeResourceRecordSets "/hostedzone/Z1" (record "DELETE") answer ]
          ++ rest /\
     Forall (fun e => is_change e = false) rest) /\
  (exists summaries t' resp,
     list_instances aws [] = (Return summaries, t') /\
     t' = [] ++ [ EvDescribeInstances
                    [ {| Name := "tag:deploy-group"; Values := ["learning-observer"] |} ]
                    (Ok resp) ] /\
     sum_PublicIpAddress <$> summaries = ["203.0.113.1"; "--.--.--.--"]) /\
  (create_instance aws Sim.creds "alice" []).2 !! 0%nat =
    Some (EvCreateInstances
            {| ImageId := "ami-09e67e426f25ce0d7";
               InstanceType := "t2.nano";
               BlockDeviceMappings :=
                 [ {| DeviceName := "/dev/xvda";
                      dev_Ebs := {| DeleteOnTermination := true;
                                    VolumeSize := 32;
                                    VolumeType := "gp2" |} |} ];
               KeyName := "key";
               MinCount := 1;
               MaxCount := 1;
               run_Placement := {| AvailabilityZone := "us-east-1b" |};
               NetworkInterfaces :=
                 [ {| SubnetId := "subnet-1";
                      DeviceIndex := 0;
                      AssociatePublicIpAddress := true;
                      Groups := ["sg-1"] |} ];
               TagSpecifications :=
                 [ {| ResourceType := "instance";
                      spec_Tags :=
                        [ {| Key := "Name"; Value := "alice" |};
                          {| Key := "Owner"; Value := "ops" |};
                          {| Key := "deploy-group"; Value := "learning-observer" |} ] |} ] |}
            (ec2_create_instances aws [] (create_request Sim.creds "alice"))).
Proof.
  intros aws zones record.
  pose proof (fixed_request_parameters aws Sim.creds 5 "alice" "alice" "example.org"
                "203.0.113.7" false []) as Hupsert.
  pose proof (fixed_request_parameters aws Sim.creds 5 "alice" "alice" "example.org"
                "203.0.113.7" true []) as Hdelete.
  cbn zeta in Hupsert, Hdelete.
  destruct Hupsert as ((answer & rest & Hcreate & _) & Hup & _ & _ & Hlist).
  destruct Hdelete as (_ & Hdel & _).
  split; [|split; [|split]].
  - exact (Hup zones {| zone_Id := "/hostedzone/Z1"; zone_Name := "example.org." |}
             eq_refl eq_refl).
  - exact (Hdel zones {| zone_Id := "/hostedzone/Z1"; zone_Name := "example.org." |}
             eq_refl eq_refl).
  - pose (listed := {| Reservations :=
                         [ {| Instances := [Sim.machine "i-a" "alice" (Some "203.0.113.1")] |};
                           {| Instances := [Sim.anonymous "i-x"] |} ] |}).
    destruct (Hlist (summary_of <$> inventory listed)
                ([] ++ [EvDescribeInstances deploy_group_filter (Ok listed)]))
      as (resp & Ht & Haddr); [run|].
    exists (summary_of <$> inventory listed),
           ([] ++ [EvDescribeInstances deploy_group_filter (Ok listed)]), resp.
    split; [run|]. split; [exact Ht|].
    injection Ht as <-. rewrite Haddr. reflexivity.
  - run.
Defined.

(** * Further properties *)

(** ** Errors of [register_dns] *)

Lemma rounds_no_failure request answers :
  Forall (fun e => failure_of e = None) (rounds request answers).
Proof.
  revert request. induction answers as [|answer rest IH]; intros request.
  - constructor.
  - cbn [rounds]. apply Forall_app. split; [now repeat constructor | apply IH].
Qed.

(** X1. [register_dns] raises in two ways only.  Either the zone count is not
    one, and then the lookup was its only call; or a provider call failed, and
    then the call raises that call's error code at once: the failed call is
    the last event and every call before it had succeeded.  In particular
    [zones[0]] never raises. *)
Theorem register_dns_raises aws fuel subdomain domain ip unregister t e t' :
  register_dns aws fuel subdomain domain ip unregister t = (Raise e, t') ->
  (e = Exception "Wrong number of hosted zones!" /\
   exists zones,
     length (HostedZones zones) <> 1%nat /\
     t' = t ++ [EvListHostedZonesByName domain (Ok zones)]) \/
  (exists c evs failed,
     e = ClientError c /\
     t' = t ++ evs ++ [failed] /\
     failure_of failed = Some c /\
     Forall (fun x => failure_of x = None) evs).
Proof.
  rewrite register_dns_run.
  destruct (r53_list_hosted_zones_by_name aws t domain) as [zones|c].
  2:{ intros [= <- <-]. right. exists c, [], (EvListHostedZonesByName domain (Failed c)).
      repeat split. constructor. }
  cbn zeta. destruct (HostedZones zones) as [|zone [|zone' more]] eqn:Hz.
  1,3: intros [= <- <-]; left; (split; [reflexivity|]); exists zones;
       rewrite Hz; split; [cbn; lia | reflexivity].
  destruct (r53_change_resource_record_sets aws _ _ _) as [request|c].
  2:{ intros [= <- <-]. right.
      exists c, [EvListHostedZonesByName domain (Ok zones)],
        (EvChangeResourceRecordSets (zone_Id zone)
           (change_batch (action_of unregister) subdomain domain ip) (Failed c)).
      repeat split. now repeat constructor. }
  destruct unregister.
  { rewrite propagate_delete. discriminate. }
  destruct (propagate aws fuel false request _) as [p t3] eqn:Hp.
  apply propagate_outcome in Hp. destruct p as [[]|e'|]; intros [= <- <-].
  destruct Hp as (waiting & c & _ & _ & -> & ->). right.
  exists c,
    (submission "UPSERT" subdomain domain ip zones zone (Ok request)
       ++ rounds request waiting
       ++ [ EvPrint [PStr "Propagating DNS....";
                     PStr (Status (ChangeInfo (default request (last waiting))))];
            EvSleep 1 ]),
    (EvGetChange (Id (ChangeInfo (default request (last waiting)))) (Failed c)).
  split; [reflexivity|]. split; [|split; [reflexivity|]].
  - unfold round. cbn [action_of]. rewrite <- !app_assoc. reflexivity.
  - apply Forall_app. split; [now repeat constructor|].
    apply Forall_app. split; [apply rounds_no_failure | now repeat constructor].
Qed.

(** An upsert whose change is accepted and whose first poll is throttled. *)
Lemma register_dns_raises_witness :
  exists t',
    register_dns (refusing Sim.plain) 5 "alice" "example.org" "203.0.113.7" false []
      = (Raise (ClientError "Throttling"), t') /\
    length t' = 5%nat /\
    ((ClientError "Throttling" = Exception "Wrong number of hosted zones!" /\
      exists zones,
        length (HostedZones zones) <> 1%nat /\
        t' = [] ++ [EvListHostedZonesByName "example.org" (Ok zones)]) \/
     (exists c evs failed,
        ClientError "Throttling" = ClientError c /\
        t' = [] ++ evs ++ [failed] /\
        failure_of failed = Some c /\
        Forall (fun x => failure_of x = None) evs)).
Proof.
  exists (register_dns (refusing Sim.plain) 5 "alice" "example.org" "203.0.113.7"
            false []).2.
  split; [run|]. split; [run|].
  apply (register_dns_raises (refusing Sim.plain) 5 "alice" "example.org"
           "203.0.113.7" false []). run.
Defined.

(** ** Failures inside [terminate_instances] *)

Lemma deletions_not_terminate name domain (ms : list Summary) dels :
  Forall2 (deletion name domain) ms dels ->
  Forall (fun e => is_terminate e = false) (concat dels).
Proof.
  induction 1 as [|m del ms dels (zones & zone & request & _ & ->) _ IH];
    [constructor|].
  rewrite concat_cons. apply Forall_app. split; [now repeat constructor | exact IH].
Qed.

Lemma dns_not_terminate (evs : list event) :
  Forall (fun e => is_dns e = true) evs ->
  Forall (fun e => is_terminate e = false) evs.
Proof. intros H. eapply Forall_impl; [exact H|]. now intros []. Qed.

(** X2. A terminate request is the last thing [terminate_instances] does, and
    it is made only after the DNS deletion of every match was accepted: a run
    either ends earlier, raising, without any terminate request, or its
    events are the inventory query, the countdown, the accepted deletions of
    all matches and then the one terminate request, whose answer decides
    between returning the number of matches and raising the provider's
    error.  So a failed DNS deletion terminates nothing, and a refused
    terminate request leaves the records deleted and the instances alive. *)
Theorem terminate_request_is_last aws fuel name t o t' :
  terminate_instances aws fuel name t = (o, t') ->
  exists evs,
    t' = t ++ evs /\
    ((Forall (fun e => is_terminate e = false) evs /\ exists e, o = Raise e) \/
     (exists resp dels answer before,
        let instances := summary_of <$> inventory resp in
        let matching := List.filter (named name) instances in
        Forall2 (deletion name "learning-observer.org") matching dels /\
        before = [ EvDescribeInstances deploy_group_filter (Ok resp);
                   EvPrint [PStr "All instances: "; PSummaries instances];
                   EvPrint [PStr "Matching instances: "; PSummaries matching] ]
                 ++ countdown
                 ++ [ EvPrint [PStr "Removing DNS"] ]
                 ++ concat dels
                 ++ [ EvPrint [PStr "Terminating"] ] /\
        Forall (fun e => is_terminate e = false) before /\
        evs = before ++ [EvTerminateInstances (sum_InstanceId <$> matching) answer] /\
        o = match answer with
            | Ok _ => Return (length matching)
            | Failed c => Raise (ClientError c)
            end)).
Proof.
  rewrite terminate_instances_run.
  destruct (ec2client_describe_instances aws t deploy_group_filter) as [resp|c].
  2:{ intros [= <- <-]. eexists. split; [reflexivity|]. left.
      split; [now repeat constructor | now eexists]. }
  cbn zeta. destruct (forallb tagged (inventory resp)).
  2:{ intros [= <- <-]. eexists. split; [reflexivity|]. left.
      split; [now repeat constructor | now eexists]. }
  destruct (forallb has_name _).
  2:{ intros [= <- <-]. eexists. split; [now rewrite <- app_assoc|]. left.
      split; [now repeat constructor | now eexists]. }
  destruct (for_ _ _ _) as [[[]|e|] t4] eqn:Hloop; apply deletions_run in Hloop.
  - destruct Hloop as (dels & Hdels & ->).
    assert (Forall (fun e => is_terminate e = false)
              ([ EvDescribeInstances deploy_group_filter (Ok resp);
                 EvPrint [PStr "All instances: ";
                          PSummaries (summary_of <$> inventory resp)];
                 EvPrint [PStr "Matching instances: ";
                          PSummaries (List.filter (named name)
                                        (summary_of <$> inventory resp))] ]
               ++ countdown ++ [ EvPrint [PStr "Removing DNS"] ]
               ++ concat dels ++ [ EvPrint [PStr "Terminating"] ])) as Hquiet.
    { repeat (apply Forall_app; split); try (now repeat constructor).
      eapply deletions_not_terminate, Hdels. }
    destruct (ec2client_terminate_instances aws _ _) as [u|c]; intros [= <- <-].
    + eexists. split; [rewrite <- !app_assoc; reflexivity|]. right.
      exists resp, dels, (Ok u). eexists. cbn zeta.
      split; [exact Hdels|]. split; [reflexivity|]. split; [exact Hquiet|].
      split; [|reflexivity]. now rewrite <- !app_assoc.
    + eexists. split; [rewrite <- !app_assoc; reflexivity|]. right.
      exists resp, dels, (Failed c). eexists. cbn zeta.
      split; [exact Hdels|]. split; [reflexivity|]. split; [exact Hquiet|].
      split; [|reflexivity]. now rewrite <- !app_assoc.
  - destruct Hloop as (_ & evs & -> & Hevs). intros [= <- <-].
    eexists. split; [rewrite <- !app_assoc; reflexivity|]. left.
    split; [|now eexists].
    repeat (apply Forall_app; split); try (now repeat constructor).
    now apply dns_not_terminate.
  - contradiction.
Qed.

(** Bob, without a hosted zone: the run stops at the lookup and terminates
    nothing.  Bob, with a provider that refuses to terminate: his record is
    deleted and the refusal is raised. *)
Lemma terminate_request_is_last_witness :
  let bob := Sim.machine "i-b" "bob" (Some "203.0.113.2") in
  let lost := Sim.aws (fleet_without_zone [bob]) in
  let stubborn := refusing (Sim.with_fleet [bob]) in
  exists t1 t2,
    terminate_instances lost 0 "bob" [] =
      (Raise (Exception "Wrong number of hosted zones!"), t1) /\
    List.filter is_terminate t1 = [] /\
    List.filter is_change t1 = [] /\
    terminate_instances stubborn 0 "bob" [] =
      (Raise (ClientError "UnauthorizedOperation"), t2) /\
    deleted_values t2 = ["203.0.113.2"] /\
    last t2 = Some (EvTerminateInstances ["i-b"] (Failed "UnauthorizedOperation")) /\
    exists evs,
      t2 = [] ++ evs /\
      ((Forall (fun e => is_terminate e = false) evs /\
        exists e, Raise (ClientError "UnauthorizedOperation") = @Raise nat e) \/
       (exists resp dels answer before,
          let instances := summary_of <$> inventory resp in
          let matching := List.filter (named "bob") instances in
          Forall2 (deletion "bob" "learning-observer.org") matching dels /\
          before = [ EvDescribeInstances deploy_group_filter (Ok resp);
                     EvPrint [PStr "All instances: "; PSummaries instances];
                     EvPrint [PStr "Matching instances: "; PSummaries matching] ]
                   ++ countdown
                   ++ [ EvPrint [PStr "Removing DNS"] ]
                   ++ concat dels
                   ++ [ EvPrint [PStr "Terminating"] ] /\
          Forall (fun e => is_terminate e = false) before /\
          evs = before ++ [EvTerminateInstances (sum_InstanceId <$> matching) answer] /\
          Raise (ClientError "UnauthorizedOperation") =
            match answer with
            | Ok _ => Return (length matching)
            | Failed c => Raise (ClientError c)
            end)).
Proof.
  intros bob lost stubborn.
  exists (terminate_instances lost 0 "bob" []).2,
         (terminate_instances stubborn 0 "bob" []).2.
  split; [run|]. split; [run|]. split; [run|]. split; [run|]. split; [run|].
  split; [run|].
  apply (terminate_request_is_last stubborn 0 "bob" []). run.
Defined.

(** X3. When some instance matches and the hosted zone of
    learning-observer.org cannot be resolved (no zone, or several),
    [terminate_instances] still runs the whole countdown, then raises
    "Wrong number of hosted zones!" at the lookup for the first match: no
    record is changed and no instance is terminated, whatever the number of
    matches. *)
Theorem terminate_instances_zone_failure aws fuel name t resp zones first rest :
  ec2client_describe_instances aws t deploy_group_filter = Ok resp ->
  Forall (has_key "Name") (inventory resp) ->
  List.filter (named name) (summary_of <$> inventory resp) = first :: rest ->
  let before :=
    t ++ [ EvDescribeInstances deploy_group_filter (Ok resp);
           EvPrint [PStr "All instances: "; PSummaries (summary_of <$> inventory resp)];
           EvPrint [PStr "Matching instances: "; PSummaries (first :: rest)] ]
      ++ countdown
      ++ [ EvPrint [PStr "Removing DNS"] ] in
  r53_list_hosted_zones_by_name aws before "learning-observer.org" = Ok zones ->
  length (HostedZones zones) <> 1%nat ->
  terminate_instances aws fuel name t =
    (Raise (Exception "Wrong number of hosted zones!"),
     before ++ [EvListHostedZonesByName "learning-observer.org" (Ok zones)]).
Proof.
  intros Hresp Hnames Hmatch before Hzones Hcount.
  rewrite terminate_instances_run, Hresp. cbn zeta.
  rewrite forallb_tagged
    by (eapply Forall_impl; [exact Hnames | intros i; apply has_key_tagged]).
  rewrite (proj2 (forallb_has_name _) Hnames), Hmatch.
  cbn [for_]. rewrite bind_run, register_dns_delete_run.
  match goal with |- context [r53_list_hosted_zones_by_name aws ?x _] =>
    replace x with before by (unfold before; now rewrite <- !app_assoc) end.
  rewrite Hzones.
  destruct (HostedZones zones) as [|zone [|zone' more]];
    [reflexivity | now cbn in Hcount | reflexivity].
Qed.

(** Two machines named dup and no hosted zone. *)
Lemma terminate_instances_zone_failure_witness :
  let a := Sim.machine "i-a" "dup" (Some "203.0.113.1") in
  let c := Sim.machine "i-c" "dup" None in
  let aws := Sim.aws (fleet_without_zone [a; c]) in
  let resp := {| Reservations := [ {| Instances := [a] |}; {| Instances := [c] |} ] |} in
  let before :=
    [] ++ [ EvDescribeInstances deploy_group_filter (Ok resp);
            EvPrint [PStr "All instances: "; PSummaries (summary_of <$> inventory resp)];
            EvPrint [PStr "Matching instances: "; PSummaries [summary_of a; summary_of c]] ]
       ++ countdown
       ++ [ EvPrint [PStr "Removing DNS"] ] in
  terminate_instances aws 0 "dup" [] =
    (Raise (Exception "Wrong number of hosted zones!"),
     before ++ [EvListHostedZonesByName "learning-observer.org"
                  (Ok {| HostedZones := [] |})]).
Proof.
  intros a c aws resp.
  apply (terminate_instances_zone_failure aws 0 "dup" [] resp {| HostedZones := [] |}
           (summary_of a) [summary_of c]).
  - reflexivity.
  - repeat constructor; apply (bool_decide_unpack _); vm_compute; exact I.
  - run.
  - reflexivity.
  - cbn. lia.
Defined.

(** ** [create_instance] leaves what it created *)

(** X4. Whatever its outcome, [create_instance] sends exactly one creation
    request, first, and after it only waits, loads and prints: it never
    terminates or describes instances and never touches DNS, so an instance
    whose wait or load fails stays as the provider created it.  When the
    creation is answered with an empty list the call raises an index error
    right there. *)
Theorem create_instance_no_cleanup aws creds name t o t' :
  create_instance aws creds name t = (o, t') ->
  exists answer rest,
    t' = t ++ EvCreateInstances (create_request creds name) answer :: rest /\
    Forall (fun e => follows_creation e = true) rest /\
    (answer = Ok [] -> o = Raise IndexError /\ rest = []).
Proof.
  rewrite create_instance_run. cbn zeta.
  destruct (ec2_create_instances aws t _) as [[|first more]|c].
  - intros [= <- <-]. exists (Ok []), []. repeat split. constructor.
  - destruct (ec2_wait_until_running aws _ _) as [u|c].
    + destruct (ec2_load aws _ _) as [d|c]; intros [= <- <-];
        eexists _, _; rewrite <- !app_assoc;
        (split; [reflexivity|]); (split; [now repeat constructor | discriminate]).
    + intros [= <- <-]. eexists _, _. rewrite <- !app_assoc.
      split; [reflexivity|]. split; [now repeat constructor | discriminate].
  - intros [= <- <-]. eexists _, []. split; [reflexivity|].
    split; [constructor | discriminate].
Qed.

(** The wait fails: the creation is the only other event, and the instance
    is not terminated. *)
Lemma create_instance_no_cleanup_witness :
  exists t',
    create_instance stalled Sim.creds "alice" [] = (Raise (ClientError "WaiterError"), t') /\
    length t' = 2%nat /\
    List.filter is_terminate t' = [] /\
    exists answer rest,
      t' = [] ++ EvCreateInstances (create_request Sim.creds "alice") answer :: rest /\
      Forall (fun e => follows_creation e = true) rest /\
      (answer = Ok [] -> Raise (ClientError "WaiterError") = @Raise Instance IndexError /\
                         rest = []).
Proof.
  exists (create_instance stalled Sim.creds "alice" []).2.
  split; [run|]. split; [run|]. split; [run|].
  apply (create_instance_no_cleanup stalled Sim.creds "alice" []). run.
Defined.

(** ** Errors of [list_instances] *)

Lemma forallb_tagged_false l :
  forallb tagged l = false -> exists i, i ∈ l /\ inst_Tags i = None.
Proof.
  induction l as [|i l IH]; [discriminate|].
  cbn [forallb]. unfold tagged at 1. destruct (inst_Tags i) eqn:Hi.
  - intros H. destruct (IH H) as (j & Hj & Hnone). exists j. split; [now right | exact Hnone].
  - intros _. exists i. split; [now left | exact Hi].
Qed.

Lemma forallb_tagged_true l :
  forallb tagged l = true -> Forall (fun i => is_Some (inst_Tags i)) l.
Proof.
  induction l as [|i l IH]; [constructor|].
  cbn [forallb]. unfold tagged at 1. destruct (inst_Tags i) eqn:Hi; [|discriminate].
  intros H. constructor; [rewrite Hi; now eexists | now apply IH].
Qed.

(** X5. [list_instances] makes one provider call, the filtered inventory
    query, and nothing else, whatever its outcome.  It returns as many
    summaries as the answer has instances; it raises the provider's error
    when the query fails; and when some instance of the answer has no tag
    list it raises [KeyError "Tags"], returning no summary at all, not even
    for the instances that have tags. *)
Theorem list_instances_outcome aws t o t' :
  list_instances aws t = (o, t') ->
  exists answer,
    t' = t ++ [ EvDescribeInstances
                  [ {| Name := "tag:deploy-group"; Values := ["learning-observer"] |} ]
                  answer ] /\
    match o with
    | Return summaries =>
        exists resp,
          answer = Ok resp /\
          length summaries = length (concat (Instances <$> Reservations resp)) /\
          Forall (fun i => is_Some (inst_Tags i)) (concat (Instances <$> Reservations resp))
    | Raise e =>
        (exists c, answer = Failed c /\ e = ClientError c) \/
        (exists resp i,
           answer = Ok resp /\ e = KeyError "Tags" /\
           i ∈ concat (Instances <$> Reservations resp) /\ inst_Tags i = None)
    | Diverge => False
    end.
Proof.
  rewrite list_instances_run.
  destruct (ec2client_describe_instances aws t deploy_group_filter) as [resp|c].
  2:{ intros [= <- <-]. exists (Failed c). split; [reflexivity|]. left. now exists c. }
  destruct (forallb tagged (inventory resp)) eqn:Htagged; intros [= <- <-];
    exists (Ok resp); (split; [reflexivity|]).
  - exists resp. split; [reflexivity|]. split; [now rewrite length_fmap|].
    now apply forallb_tagged_true.
  - right. apply forallb_tagged_false in Htagged as (i & Hi & Hnone).
    now exists resp, i.
Qed.

(** The provider answers with alice and with an instance that has no tag
    list: no summary comes back. *)
Lemma list_instances_outcome_witness :
  let careless := {|
    ec2_create_instances := ec2_create_instances stalled;
    ec2_wait_until_running := ec2_wait_until_running stalled;
    ec2_load := ec2_load stalled;
    ec2client_describe_instances := fun _ _ =>
      Ok {| Reservations :=
              [ {| Instances := [ Sim.machine "i-a" "alice" (Some "203.0.113.1");
                                  Sim.stranger "i-s" ] |} ] |};
    ec2client_terminate_instances := ec2client_terminate_instances stalled;
    r53_list_hosted_zones_by_name := r53_list_hosted_zones_by_name stalled;
    r53_change_resource_record_sets := r53_change_resource_record_sets stalled;
    r53_get_change := r53_get_change stalled |} in
  exists t',
    list_instances careless [] = (Raise (KeyError "Tags"), t') /\
    exists answer,
      t' = [] ++ [ EvDescribeInstances
                     [ {| Name := "tag:deploy-group"; Values := ["learning-observer"] |} ]
                     answer ] /\
      ((exists c, answer = Failed c /\ KeyError "Tags" = ClientError c) \/
       (exists resp i,
          answer = Ok resp /\ KeyError "Tags" = KeyError "Tags" /\
          i ∈ concat (Instances <$> Reservations resp) /\ inst_Tags i = None)).
Proof.
  intros careless. exists (list_instances careless []).2.
  split; [run|].
  apply (list_instances_outcome careless [] (Raise (KeyError "Tags"))). run.
Defined.

(** ** [name_to_group] *)

(** X6. When the inventory query is answered and every instance listed has a
    [Name] tag, [name_to_group] returns the group built from the addresses of
    the instances named [machine_name], in inventory order, joined by single
    spaces; it makes the one inventory query, prints the pool, and calls
    nothing else.  Instances are not filtered by address: a match that has no
    public address puts the placeholder "--.--.--.--" in the pool.  When
    nothing matches, the pool is the empty string and the group is built from
    it all the same. *)
Theorem name_to_group_pool aws {Group : Type} (group_from_poolstring : string -> Group)
    machine_name t resp :
  ec2client_describe_instances aws t deploy_group_filter = Ok resp ->
  Forall (has_key "Name") (inventory resp) ->
  let matching := List.filter (named machine_name) (summary_of <$> inventory resp) in
  let pool := String.concat " " (sum_PublicIpAddress <$> matching) in
  name_to_group aws group_from_poolstring machine_name t =
    (Return (group_from_poolstring pool),
     t ++ [ EvDescribeInstances deploy_group_filter (Ok resp); EvPrint [PStr pool] ]) /\
  (forall i,
     i ∈ inventory resp -> named machine_name (summary_of i) = true ->
     PublicIpAddress i = None ->
     "--.--.--.--" ∈ sum_PublicIpAddress <$> matching) /\
  (matching = [] -> pool = "").
Proof.
  intros Hresp Hnames matching pool. split; [|split].
  - rewrite name_to_group_run, Hresp. cbn zeta.
    rewrite forallb_tagged
      by (eapply Forall_impl; [exact Hnames | intros i; apply has_key_tagged]).
    rewrite (proj2 (forallb_has_name _) Hnames). now rewrite <- app_assoc.
  - intros i Hin Hnamed Hnone.
    apply list_elem_of_fmap. exists (summary_of i). split.
    + unfold summary_of. cbn [sum_PublicIpAddress]. now rewrite Hnone.
    + apply list_elem_of_In, filter_In. split; [|exact Hnamed].
      apply list_elem_of_In. now apply list_elem_of_fmap_2.
  - unfold pool. now intros ->.
Qed.

(** Two machines named web, the second not yet addressable, and bob. *)
Lemma name_to_group_pool_witness :
  let fleet := [ Sim.machine "i-a" "web" (Some "203.0.113.1");
                 Sim.machine "i-b" "bob" (Some "203.0.113.2");
                 Sim.machine "i-c" "web" None ] in
  let aws := Sim.aws (Sim.with_fleet fleet) in
  let resp := {| Reservations := (fun d => {| Instances := [d] |}) <$> fleet |} in
  name_to_group aws (fun pool => [pool]) "web" [] =
    (Return ["203.0.113.1 --.--.--.--"],
     [] ++ [ EvDescribeInstances deploy_group_filter (Ok resp);
             EvPrint [PStr "203.0.113.1 --.--.--.--"] ]) /\
  name_to_group aws (fun pool => [pool]) "ghost" [] =
    (Return [""],
     [] ++ [ EvDescribeInstances deploy_group_filter (Ok resp); EvPrint [PStr ""] ]).
Proof.
  intros fleet aws resp.
  assert (Forall (has_key "Name") (inventory resp)) as Hnames
    by (repeat constructor; apply (bool_decide_unpack _); vm_compute; exact I).
  split.
  - exact (proj1 (name_to_group_pool aws (fun pool => [pool]) "web" [] resp
                    eq_refl Hnames)).
  - exact (proj1 (name_to_group_pool aws (fun pool => [pool]) "ghost" [] resp
                    eq_refl Hnames)).
Defined.

(** ** [name_to_group] and [terminate_instances] resolve a name alike *)

Lemma deleted_values_app l1 l2 :
  deleted_values (l1 ++ l2) = deleted_values l1 ++ deleted_values l2.
Proof. apply flat_map_app. Qed.

Lemma deleted_values_deletions name domain (ms : list Summary) dels :
  Forall2 (deletion name domain) ms dels ->
  deleted_values (concat dels) = sum_PublicIpAddress <$> ms.
Proof.
  induction 1 as [|m del ms dels (zones & zone & request & _ & ->) _ IH];
    [reflexivity|].
  rewrite concat_cons, deleted_values_app, IH, fmap_cons. reflexivity.
Qed.

(** X7. The two functions resolve a name to the same machines.  Run from the
    same point, a [terminate_instances name] that returns has deleted the
    records of exactly the addresses, in the same order, that
    [name_to_group name] joins into its pool, placeholders included. *)
Theorem terminated_are_the_group aws {Group : Type}
    (group_from_poolstring : string -> Group) fuel name t n t1 group t2 :
  terminate_instances aws fuel name t = (Return n, t1) ->
  name_to_group aws group_from_poolstring name t = (Return group, t2) ->
  group = group_from_poolstring
            (String.concat " " (deleted_values (drop (length t) t1))) /\
  n = length (deleted_values (drop (length t) t1)).
Proof.
  intros Hterm Hgroup.
  destruct (ec2client_describe_instances aws t deploy_group_filter) as [resp|c] eqn:Hresp.
  2:{ rewrite name_to_group_run, Hresp in Hgroup. discriminate. }
  destruct (terminate_instances_returned aws fuel name t resp n t1 Hresp Hterm)
    as (dels & u & Hn & Hdels & ->).
  cbn zeta in *. rewrite drop_app_length.
  assert (deleted_values
            ([ EvDescribeInstances deploy_group_filter (Ok resp);
               EvPrint [PStr "All instances: ";
                        PSummaries (summary_of <$> inventory resp)];
               EvPrint [PStr "Matching instances: ";
                        PSummaries (List.filter (named name)
                                      (summary_of <$> inventory resp))] ]
             ++ countdown ++ [ EvPrint [PStr "Removing DNS"] ] ++ concat dels
             ++ [ EvPrint [PStr "Terminating"];
                  EvTerminateInstances
                    (sum_InstanceId <$> List.filter (named name)
                                          (summary_of <$> inventory resp)) (Ok u) ])
          = sum_PublicIpAddress <$> List.filter (named name)
                                      (summary_of <$> inventory resp)) as ->.
  { rewrite !deleted_values_app, (deleted_values_deletions _ _ _ _ Hdels).
    cbn. now rewrite app_nil_r. }
  split; [|now rewrite length_fmap].
  rewrite name_to_group_run, Hresp in Hgroup. cbn zeta in Hgroup.
  destruct (forallb tagged (inventory resp)); [|discriminate].
  destruct (forallb has_name _); [|discriminate].
  now injection Hgroup as <- _.
Qed.

Lemma terminated_are_the_group_witness :
  let fleet := [ Sim.machine "i-a" "web" (Some "203.0.113.1");
                 Sim.machine "i-b" "bob" (Some "203.0.113.2");
                 Sim.machine "i-c" "web" None ] in
  let aws := Sim.aws (Sim.with_fleet fleet) in
  exists t1 t2,
    terminate_instances aws 0 "web" [] = (Return 2%nat, t1) /\
    name_to_group aws (fun pool => [pool]) "web" [] =
      (Return ["203.0.113.1 --.--.--.--"], t2) /\
    deleted_values t1 = ["203.0.113.1"; "--.--.--.--"] /\
    (["203.0.113.1 --.--.--.--"] =
       [String.concat " " (deleted_values (drop (length (@nil event)) t1))] /\
     2%nat = length (deleted_values (drop (length (@nil event)) t1))).
Proof.
  intros fleet aws.
  exists (terminate_instances aws 0 "web" []).2,
         (name_to_group aws (fun pool => [pool]) "web" []).2.
  split; [run|]. split; [run|]. split; [run|].
  apply (terminated_are_the_group aws (fun pool => [pool]) 0 "web" [] 2%nat
           (terminate_instances aws 0 "web" []).2 ["203.0.113.1 --.--.--.--"]
           (name_to_group aws (fun pool => [pool]) "web" []).2); run.
Defined.

Lemma terminate_instances_deleted_values aws fuel name t resp n t' :
  ec2client_describe_instances aws t deploy_group_filter = Ok resp ->
  terminate_instances aws fuel name t = (Return n, t') ->
  deleted_values (drop (length t) t') =
    sum_PublicIpAddress <$> List.filter (named name) (summary_of <$> inventory resp).
Proof.
  intros Hresp Hterm.
  destruct (terminate_instances_returned aws fuel name t resp n t' Hresp Hterm)
    as (dels & u & _ & Hdels & ->).
  cbn zeta in *. rewrite drop_app_length, !deleted_values_app.
  rewrite (deleted_values_deletions _ _ _ _ Hdels). cbn. now rewrite app_nil_r.
Qed.

Lemma filter_summaries name (l : list InstanceDesc) :
  List.filter (named name) (summary_of <$> l) =
    summary_of <$> List.filter (fun i => named name (summary_of i)) l.
Proof.
  induction l as [|i l IH]; [reflexivity|].
  rewrite fmap_cons. cbn [List.filter]. rewrite IH.
  now destruct (named name (summary_of i)).
Qed.

(** X8. [terminate_instances] does not skip a match that has no public
    address.  In a run that returns, the values of the records deleted are,
    one for one and in order, the addresses of the instances of the inventory
    named [name], with the placeholder "--.--.--.--" standing for each match
    that has no address: the DELETE submitted for the k-th match, when that
    match has no address, has the placeholder as its record value. *)
Theorem terminate_instances_deletes_placeholder aws fuel name t resp n t' :
  ec2client_describe_instances aws t deploy_group_filter = Ok resp ->
  terminate_instances aws fuel name t = (Return n, t') ->
  let matches :=
    List.filter (fun i => named name (summary_of i))
                (concat (Instances <$> Reservations resp)) in
  deleted_values (drop (length t) t') =
    (fun i => match PublicIpAddress i with
              | Some address => address
              | None => "--.--.--.--"
              end) <$> matches /\
  (forall k i,
     matches !! k = Some i -> PublicIpAddress i = None ->
     deleted_values (drop (length t) t') !! k = Some "--.--.--.--").
Proof.
  intros Hresp Hterm matches.
  assert (deleted_values (drop (length t) t') =
            (fun i => match PublicIpAddress i with
                      | Some address => address
                      | None => "--.--.--.--"
                      end) <$> matches) as Hvalues.
  { rewrite (terminate_instances_deleted_values aws fuel name t resp n t' Hresp Hterm).
    rewrite filter_summaries. apply summary_addresses. }
  split; [exact Hvalues|].
  intros k i Hk Hnone. rewrite Hvalues, list_lookup_fmap, Hk. cbn. now rewrite Hnone.
Qed.

(** Four machines: web without an address, bob, web with one, web without
    one.  Three records are deleted, the first and the third with the
    placeholder for a value. *)
Lemma terminate_instances_deletes_placeholder_witness :
  let fleet := [ Sim.machine "i-a" "web" None;
                 Sim.machine "i-b" "bob" (Some "203.0.113.2");
                 Sim.machine "i-c" "web" (Some "203.0.113.3");
                 Sim.machine "i-d" "web" None ] in
  let aws := Sim.aws (Sim.with_fleet fleet) in
  let resp := {| Reservations := (fun d => {| Instances := [d] |}) <$> fleet |} in
  let t' := (terminate_instances aws 0 "web" []).2 in
  let matches :=
    List.filter (fun i => named "web" (summary_of i))
                (concat (Instances <$> Reservations resp)) in
  terminate_instances aws 0 "web" [] = (Return 3%nat, t') /\
  deleted_values t' = ["--.--.--.--"; "203.0.113.3"; "--.--.--.--"] /\
  (deleted_values (drop (length (@nil event)) t') =
     (fun i => match PublicIpAddress i with
               | Some address => address
               | None => "--.--.--.--"
               end) <$> matches /\
   (forall k i,
      matches !! k = Some i -> PublicIpAddress i = None ->
      deleted_values (drop (length (@nil event)) t') !! k = Some "--.--.--.--")).
Proof.
  intros fleet aws resp t' matches.
  split; [run|]. split; [run|].
  apply (terminate_instances_deletes_placeholder aws 0 "web" [] resp 3%nat t').
  - reflexivity.
  - run.
Defined.

Lemma forallb_tagged_untagged l i :
  i ∈ l -> inst_Tags i = None -> forallb tagged l = false.
Proof.
  intros Hin Hnone. destruct (forallb tagged l) eqn:Hall; [|reflexivity].
  apply forallb_tagged_true in Hall.
  eapply Forall_forall in Hall; [|exact Hin]. rewrite Hnone in Hall.
  now destruct Hall.
Qed.

(** X9. An instance without a tag list in the answer to the inventory query
    stops both callers of [list_instances] at once: [terminate_instances] and
    [name_to_group] raise [KeyError "Tags"] with the query as their only
    event, whatever name is asked for and whether or not any other instance
    matches.  Nothing is printed, deleted or terminated. *)
Theorem untagged_instance_stops_callers aws fuel name t resp i
    {Group : Type} (group_from_poolstring : string -> Group) :
  ec2client_describe_instances aws t deploy_group_filter = Ok resp ->
  i ∈ inventory resp ->
  inst_Tags i = None ->
  terminate_instances aws fuel name t =
    (Raise (KeyError "Tags"), t ++ [EvDescribeInstances deploy_group_filter (Ok resp)]) /\
  name_to_group aws group_from_poolstring name t =
    (Raise (KeyError "Tags"), t ++ [EvDescribeInstances deploy_group_filter (Ok resp)]).
Proof.
  intros Hresp Hin Hnone.
  rewrite terminate_instances_run, name_to_group_run, Hresp. cbn zeta.
  now rewrite (forallb_tagged_untagged _ i Hin Hnone).
Qed.

(** Alice is listed next to an instance without a tag list: asking for alice
    fails before anything is done. *)
Lemma untagged_instance_stops_callers_witness :
  let resp := {| Reservations :=
                   [ {| Instances := [ Sim.machine "i-a" "alice" (Some "203.0.113.1");
                                       Sim.stranger "i-s" ] |} ] |} in
  let careless := {|
    ec2_create_instances := ec2_create_instances stalled;
    ec2_wait_until_running := ec2_wait_until_running stalled;
    ec2_load := ec2_load stalled;
    ec2client_describe_instances := fun _ _ => Ok resp;
    ec2client_terminate_instances := ec2client_terminate_instances stalled;
    r53_list_hosted_zones_by_name := r53_list_hosted_zones_by_name stalled;
    r53_change_resource_record_sets := r53_change_resource_record_sets stalled;
    r53_get_change := r53_get_change stalled |} in
  terminate_instances careless 0 "alice" [] =
    (Raise (KeyError "Tags"), [] ++ [EvDescribeInstances deploy_group_filter (Ok resp)]) /\
  name_to_group careless (fun pool => [pool]) "alice" [] =
    (Raise (KeyError "Tags"), [] ++ [EvDescribeInstances deploy_group_filter (Ok resp)]).
Proof.
  intros resp careless.
  apply (untagged_instance_stops_callers careless 0 "alice" [] resp
           (Sim.stranger "i-s") (fun pool => [pool])).
  - reflexivity.
  - apply list_elem_of_In. right. now left.
  - reflexivity.
Defined.
